(** * fastapi-cacheops: a verified model of [mycachelib]

    The development embeds [mycachelib.py] (the read-through cache that sits
    between an application and its SQL store) and proves the behaviour the
    design document states for it.

    Layout:
    - [PyStr]: the Python [str] operations the library uses ([strip],
      [lower], [startswith], [repr], UTF-8 encoding);
    - [Sha256]: [hashlib.sha256(...).hexdigest()];
    - exceptions, parameters, store results and cache payloads;
    - [make_cache_key], the statement classifier and the materializer,
      which are pure;
    - the [Backend] interface (remote cache, store, clock, pickle), the
      computation type [M] and [CachedAsyncSession] with [execute] and
      [clear_cache];
    - the hook of [register_simple_invalidation] and the event loop;
    - [Sim], a small executable backend on which the model is run;
    - the theorems. *)

From Stdlib Require Import ZArith NArith QArith String Ascii List Lia.
From Stdlib Require Strings.Byte DecimalString.
From stdpp Require Import base option gmap strings list sorting.

Set Default Proof Using "Type".
Local Open Scope Z_scope.

(* ===================================================================== *)
(** * Python strings *)
(* ===================================================================== *)

(** A Python [str] is modelled as a Rocq [string] whose characters are the
    code points 0..255 (the Latin-1 range of Unicode). *)
Module PyStr.

Definition ord (c : ascii) : N := N_of_ascii c.

Definition between (lo hi n : N) : bool := ((lo <=? n) && (n <=? hi))%N.

(** [str.isspace] on one code point: TAB..CR, FS..US, SPACE, NEL, NBSP. *)
Definition isspace (c : ascii) : bool :=
  let n := ord c in
  between 9 13 n || between 28 32 n || (n =? 133)%N || (n =? 160)%N.

Fixpoint lstrip (s : string) : string :=
  match s with
  | EmptyString => EmptyString
  | String c s' => if isspace c then lstrip s' else s
  end.

Definition reverse (s : string) : string :=
  string_of_list_ascii (rev (list_ascii_of_string s)).

Definition rstrip (s : string) : string := reverse (lstrip (reverse s)).

(** [s.strip()] *)
Definition strip (s : string) : string := rstrip (lstrip s).

(** [str.lower] on one code point: A..Z and the Latin-1 capitals
    U+00C0..U+00DE (U+00D7, the multiplication sign, excepted). *)
Definition lower_char (c : ascii) : ascii :=
  let n := ord c in
  if between 65 90 n || (between 192 222 n && negb (n =? 215)%N)
  then ascii_of_N (n + 32) else c.

Fixpoint lower (s : string) : string :=
  match s with
  | EmptyString => EmptyString
  | String c s' => String (lower_char c) (lower s')
  end.

(** [s.startswith(p)] *)
Definition startswith (s p : string) : bool := String.prefix p s.

(** [s.startswith((p1, p2, ...))] *)
Definition startswith_any (s : string) (ps : list string) : bool :=
  existsb (startswith s) ps.

Fixpoint contains (c : ascii) (s : string) : bool :=
  match s with
  | EmptyString => false
  | String d s' => Ascii.eqb c d || contains c s'
  end.

Definition hex_digit (n : N) : ascii :=
  if (n <? 10)%N then ascii_of_N (48 + n) else ascii_of_N (87 + n).

(** [str.isprintable] on one code point. *)
Definition isprintable (c : ascii) : bool :=
  let n := ord c in
  negb ((n <? 32)%N || between 127 160 n || (n =? 173)%N).

(** One character of [repr(s)] when [q] is the chosen quote. *)
Definition repr_char (q c : ascii) : string :=
  let n := ord c in
  if Ascii.eqb c q || Ascii.eqb c "\"%char then String "\" (String c "")
  else if (n =? 9)%N then "\t"
  else if (n =? 10)%N then "\n"
  else if (n =? 13)%N then "\r"
  else if isprintable c then String c ""
  else String "\" (String "x" (String (hex_digit (n / 16)) (String (hex_digit (n mod 16)) ""))).

Fixpoint repr_body (q : ascii) (s : string) : string :=
  match s with
  | EmptyString => EmptyString
  | String c s' => repr_char q c ++ repr_body q s'
  end.

Definition dquote : ascii := ascii_of_N 34.
Definition squote : ascii := ascii_of_N 39.

(** [repr(s)]: single quotes, unless the string has a single quote and no
    double quote. *)
Definition repr (s : string) : string :=
  let q := if contains squote s && negb (contains dquote s) then dquote else squote in
  String q (repr_body q s ++ String q "").

(** [s.encode("utf-8")] for code points below 256. *)
Definition utf8_char (c : ascii) : list Z :=
  let n := Z.of_N (ord c) in
  if n <? 128 then [n]
  else [Z.lor 192 (Z.shiftr n 6); Z.lor 128 (Z.land n 63)].

Fixpoint encode_utf8 (s : string) : list Z :=
  match s with
  | EmptyString => []
  | String c s' => utf8_char c ++ encode_utf8 s'
  end.

(** [str(n)] for an [int]. *)
Definition of_int (z : Z) : string := DecimalString.NilZero.string_of_int (Z.to_int z).

End PyStr.

(* ===================================================================== *)
(** * SHA-256 *)
(* ===================================================================== *)

(** [hashlib.sha256(data).hexdigest()] (FIPS 180-4) on 32-bit words held in
    [Z], every addition reduced modulo [2^32]. *)
Module Sha256.

Definition w32 (x : Z) : Z := x mod 4294967296.
Definition add32 (x y : Z) : Z := w32 (x + y).
Definition shr (n x : Z) : Z := Z.shiftr x n.
Definition rotr (n x : Z) : Z := Z.lor (Z.shiftr x n) (w32 (Z.shiftl x (32 - n))).
Definition not32 (x : Z) : Z := Z.lxor x 4294967295.

Definition Ch (x y z : Z) : Z := Z.lxor (Z.land x y) (Z.land (not32 x) z).
Definition Maj (x y z : Z) : Z := Z.lxor (Z.lxor (Z.land x y) (Z.land x z)) (Z.land y z).
Definition Sigma0 (x : Z) : Z := Z.lxor (Z.lxor (rotr 2 x) (rotr 13 x)) (rotr 22 x).
Definition Sigma1 (x : Z) : Z := Z.lxor (Z.lxor (rotr 6 x) (rotr 11 x)) (rotr 25 x).
Definition sigma0 (x : Z) : Z := Z.lxor (Z.lxor (rotr 7 x) (rotr 18 x)) (shr 3 x).
Definition sigma1 (x : Z) : Z := Z.lxor (Z.lxor (rotr 17 x) (rotr 19 x)) (shr 10 x).

Definition K : list Z :=
  [ 1116352408; 1899447441; 3049323471; 3921009573; 961987163; 1508970993;
    2453635748; 2870763221; 3624381080; 310598401; 607225278; 1426881987;
    1925078388; 2162078206; 2614888103; 3248222580; 3835390401; 4022224774;
    264347078; 604807628; 770255983; 1249150122; 1555081692; 1996064986;
    2554220882; 2821834349; 2952996808; 3210313671; 3336571891; 3584528711;
    113926993; 338241895; 666307205; 773529912; 1294757372; 1396182291;
    1695183700; 1986661051; 2177026350; 2456956037; 2730485921; 2820302411;
    3259730800; 3345764771; 3516065817; 3600352804; 4094571909; 275423344;
    430227734; 506948616; 659060556; 883997877; 958139571; 1322822218;
    1537002063; 1747873779; 1955562222; 2024104815; 2227730452; 2361852424;
    2428436474; 2756734187; 3204031479; 3329325298 ].

Definition H0 : list Z :=
  [ 1779033703; 3144134277; 1013904242; 2773480762;
    1359893119; 2600822924; 528734635; 1541459225 ].

(** Padding: a 1 bit, zeros up to 56 modulo 64, the bit length on 8 bytes. *)
Definition be_bytes (n : nat) (x : Z) : list Z :=
  map (fun i => Z.land (Z.shiftr x (8 * Z.of_nat (n - 1 - i))) 255) (seq 0 n).

Definition pad (msg : list Z) : list Z :=
  let l := Z.of_nat (length msg) in
  let k := Z.to_nat ((55 - l) mod 64) in
  msg ++ [128] ++ repeat 0 k ++ be_bytes 8 (8 * l).

Fixpoint words (bs : list Z) : list Z :=
  match bs with
  | a :: b :: c :: d :: rest =>
      (Z.shiftl a 24 + Z.shiftl b 16 + Z.shiftl c 8 + d) :: words rest
  | _ => []
  end.

(** The message schedule, newest word first: [sched] holds W[t-1], W[t-2], ... *)
Fixpoint extend (n : nat) (sched : list Z) : list Z :=
  match n with
  | O => sched
  | S n' =>
      let w := add32 (add32 (sigma1 (nth 1 sched 0)) (nth 6 sched 0))
                     (add32 (sigma0 (nth 14 sched 0)) (nth 15 sched 0)) in
      extend n' (w :: sched)
  end.

Definition schedule (block : list Z) : list Z := rev (extend 48 (rev block)).

Record regs := Regs { ra : Z; rb : Z; rc : Z; rd : Z; re : Z; rf : Z; rg : Z; rh : Z }.

Definition round (r : regs) (kw : Z * Z) : regs :=
  let '(k, w) := kw in
  let t1 := add32 (add32 (add32 (rh r) (Sigma1 (re r))) (add32 (Ch (re r) (rf r) (rg r)) k)) w in
  let t2 := add32 (Sigma0 (ra r)) (Maj (ra r) (rb r) (rc r)) in
  Regs (add32 t1 t2) (ra r) (rb r) (rc r) (add32 (rd r) t1) (re r) (rf r) (rg r).

Definition of_list (h : list Z) : regs :=
  Regs (nth 0 h 0) (nth 1 h 0) (nth 2 h 0) (nth 3 h 0)
       (nth 4 h 0) (nth 5 h 0) (nth 6 h 0) (nth 7 h 0).

Definition to_list (r : regs) : list Z :=
  [ra r; rb r; rc r; rd r; re r; rf r; rg r; rh r].

Definition compress (h : list Z) (block : list Z) : list Z :=
  let r := fold_left round (combine K (schedule block)) (of_list h) in
  map (fun p => add32 (fst p) (snd p)) (combine h (to_list r)).

Fixpoint blocks (n : nat) (ws : list Z) (h : list Z) : list Z :=
  match n with
  | O => h
  | S n' =>
      match ws with
      | [] => h
      | _ => blocks n' (skipn 16 ws) (compress h (firstn 16 ws))
      end
  end.

Definition digest (msg : list Z) : list Z :=
  let ws := words (pad msg) in
  blocks (length ws) ws H0.

Definition hex_word (w : Z) : string :=
  string_of_list_ascii
    (map (fun i => PyStr.hex_digit (Z.to_N (Z.land (Z.shiftr w (4 * Z.of_nat (7 - i))) 15)))
         (seq 0 8)).

Definition hexdigest (msg : list Z) : string :=
  fold_right (fun w acc => (hex_word w ++ acc)%string) EmptyString (digest msg).

End Sha256.

(* ===================================================================== *)
(** * Exceptions and results *)
(* ===================================================================== *)

(** An exception object: an instance of (a subclass of) Python's
    [Exception], named by its class.  [BaseException]s outside [Exception]
    (interpreter exit, task cancellation) are outside the model. *)
Inductive exn : Type := PyException (cls : string).

(** The outcome of evaluating a Python expression. *)
Inductive Res (A : Type) : Type :=
| Ok (a : A)
| Raise (e : exn).
Arguments Ok {A} a.
Arguments Raise {A} e.

#[global] Instance Res_ret : MRet Res := fun A a => Ok a.
#[global] Instance Res_bind : MBind Res := fun A B f r =>
  match r with
  | Ok a => f a
  | Raise e => Raise e
  end.

#[global] Instance Res_fmap : FMap Res := fun A B f r =>
  match r with
  | Ok a => Ok (f a)
  | Raise e => Raise e
  end.

(** [try: body  except Exception: handler] on a pure outcome. *)
Definition try_exceptR {A} (body : Res A) (handler : Res A) : Res A :=
  match body with
  | Ok a => Ok a
  | Raise _ => handler
  end.

Definition is_Ok {A} (r : Res A) : bool :=
  match r with Ok _ => true | Raise _ => false end.

(* ===================================================================== *)
(** * Values: parameters, store results, payloads *)
(* ===================================================================== *)

(** Scalar column and parameter values. *)
Inductive PyVal : Type :=
| VNone
| VBool (b : bool)
| VInt (z : Z)
| VStr (s : string).

(** [repr(v)] *)
Definition repr_val (v : PyVal) : string :=
  match v with
  | VNone => "None"
  | VBool true => "True"
  | VBool false => "False"
  | VInt z => PyStr.of_int z
  | VStr s => PyStr.repr s
  end.

(** A [dict] with [str] keys, in insertion order (the order [repr] and
    iteration follow); keys are pairwise distinct. *)
Definition PyDict : Type := list (string * PyVal).

Definition repr_item (kv : string * PyVal) : string :=
  (PyStr.repr (fst kv) ++ ": " ++ repr_val (snd kv))%string.

(** [", ".join(parts)] *)
Fixpoint join_comma (parts : list string) : string :=
  match parts with
  | [] => ""
  | [p] => p
  | p :: rest => (p ++ ", " ++ join_comma rest)%string
  end.

(** [repr(d)] for a [dict] *)
Definition repr_dict (d : PyDict) : string :=
  ("{" ++ join_comma (map repr_item d) ++ "}")%string.

(** A statement ([sqlalchemy.sql.Executable]): whether it is an instance of
    [Select], and what [str(statement)] evaluates to. *)
Record Executable : Type := {
  isinstance_Select : bool;
  str : Res string;
}.

(** An element of [result.scalars().all()]: a mapped ORM instance (it has
    [__mapper__]; [columns] is the outcome of reading its column attributes
    through [sa_inspect(obj).mapper.column_attrs]) or a primitive. *)
Inductive PyObj : Type :=
| OrmInstance (columns : Res PyDict)
| Primitive (v : PyVal).

(** [hasattr(obj, "__mapper__")] *)
Definition has_mapper (o : PyObj) : bool :=
  match o with
  | OrmInstance _ => true
  | Primitive _ => false
  end.

(** The store's native result, seen through the two calls the library
    makes on it: [result.scalars().all()], and [result.mappings().all()]
    (always invoked after the former has been attempted). *)
Record RawResult : Type := {
  scalars_all : Res (list PyObj);
  mappings_all : Res (list PyDict);
}.

(** One element of a payload: a flat record or an object taken as it is. *)
Inductive Item : Type :=
| IRecord (d : PyDict)
| IObject (o : PyObj).

Definition Payload : Type := list Item.

Definition bytes : Type := list Byte.byte.

(** What [execute] hands back: the store's own result on the bypass path,
    a payload otherwise. *)
Inductive Returned : Type :=
| Native (result : RawResult)
| Portable (payload : Payload).

(* ===================================================================== *)
(** * make_cache_key *)
(* ===================================================================== *)

(** [make_cache_key(statement, params, prefix)]:
    [sha256(f"{str(statement)}|{repr(params)}".encode("utf-8")).hexdigest()]
    behind [prefix + ":"]. *)
Definition make_cache_key (statement : Executable) (params : PyDict) (prefix : string)
  : Res string :=
  sql_text ← str statement;
  let raw := (sql_text ++ "|" ++ repr_dict params)%string in
  let digest := Sha256.hexdigest (PyStr.encode_utf8 raw) in
  Ok (prefix ++ ":" ++ digest)%string.

(* ===================================================================== *)
(** * Statement classification *)
(* ===================================================================== *)

(** Lines 52-57 of [execute]: a [Select] instance, or a statement whose
    stripped, lowercased text starts with [select]; a failing [str] is
    suppressed and leaves the statement unclassified. *)
Definition is_select (statement : Executable) : bool :=
  if isinstance_Select statement then true
  else
    match str statement with
    | Ok s => PyStr.startswith (PyStr.lower (PyStr.strip s)) "select"
    | Raise _ => false
    end.

(** The test of [_after_execute]: the text starts with [insert], [update]
    or [delete]. *)
Definition is_write_text (txt : string) : bool :=
  PyStr.startswith_any txt ["insert"; "update"; "delete"]%string.

(* ===================================================================== *)
(** * Materialization (lines 91-120 of [execute]) *)
(* ===================================================================== *)

(** [{attr.key: getattr(obj, attr.key) for attr in sa_inspect(obj).mapper.column_attrs}]:
    inspecting a primitive raises [NoInspectionAvailable]. *)
Definition column_dict (o : PyObj) : Res PyDict :=
  match o with
  | OrmInstance columns => columns
  | Primitive _ => Raise (PyException "NoInspectionAvailable")
  end.

(** The list comprehension over [scalars_list]: the first failure aborts it. *)
Fixpoint serialize_columns (objs : list PyObj) : Res Payload :=
  match objs with
  | [] => Ok []
  | o :: rest =>
      d ← column_dict o;
      ds ← serialize_columns rest;
      Ok (IRecord d :: ds)
  end.

(** [rows = result.mappings().all(); payload = [dict(r) for r in rows]] *)
Definition mappings_payload (result : RawResult) : Res Payload :=
  rows ← mappings_all result;
  Ok (map IRecord rows).

(** The body of the outer [try]. *)
Definition materialize_body (result : RawResult) : Res Payload :=
  scalars_list ← scalars_all result;
  match scalars_list with
  | first :: _ =>
      if has_mapper first
      then try_exceptR (serialize_columns scalars_list) (Ok [])
      else Ok (map IObject scalars_list)
  | [] => try_exceptR (mappings_payload result) (Ok [])
  end.

(** The whole block: the outer [except] retries through the mappings. *)
Definition materialize (result : RawResult) : Res Payload :=
  try_exceptR (materialize_body result)
              (try_exceptR (mappings_payload result) (Ok [])).

(* ===================================================================== *)
(** * The environment of a session *)
(* ===================================================================== *)

(** Wall-clock time ([time.time()], seconds) is a rational; the rounding of
    floating-point addition is not modelled. *)
Definition Qltb (a b : Q) : bool := negb (Qle_bool b a).

(** Lines printed on standard output. *)
Inductive Message : Type :=
| ReturningFromCache
| ReturningFromCacheLocal
| HittingTheDatabase.

(** Calls that leave the process, in the order they are made. *)
Inductive Event : Type :=
| RedisGet (key : string)
| RedisSet (key : string) (value : bytes) (ex : Z)
| RedisKeys (pattern : string)
| RedisDelete (keys : list string)
| StoreExecute (statement : Executable) (params : PyDict)
| Print (msg : Message).

(** The collaborators of the library, as transitions of an outside world
    [W]: the remote cache client ([redis.asyncio.Redis]), the parent
    [AsyncSession.execute], the clock and [pickle].  Each call may raise. *)
Class Backend (W : Type) : Type := {
  redis_get : string -> W -> Res (option bytes) * W;
  redis_set : string -> bytes -> Z -> W -> Res unit * W;
  redis_keys : string -> W -> Res (list string) * W;
  redis_delete : list string -> W -> Res Z * W;
  super_execute : Executable -> PyDict -> W -> Res RawResult * W;
  time_time : W -> Q * W;
  pickle_dumps : Payload -> Res bytes;
  pickle_loads : bytes -> Res Payload;
}.

(** The attributes [CachedAsyncSession.__init__] sets ([_redis] is the
    backend). *)
Record CachedAsyncSession : Type := {
  _cache_prefix : string;
  _ttl : Z;
  _last_from_cache : option bool;
  _local_cache : gmap string (Payload * Q);
}.

(** [CachedAsyncSession(redis_client=..., cache_prefix=..., default_ttl=...)] *)
Definition __init__ (cache_prefix : string) (default_ttl : Z) : CachedAsyncSession :=
  {| _cache_prefix := cache_prefix;
     _ttl := default_ttl;
     _last_from_cache := None;
     _local_cache := ∅ |}.

(** Attribute assignments on the session object. *)
Definition with_flag (b : bool) (s : CachedAsyncSession) : CachedAsyncSession :=
  {| _cache_prefix := _cache_prefix s; _ttl := _ttl s;
     _last_from_cache := Some b; _local_cache := _local_cache s |}.

Definition with_local (c : gmap string (Payload * Q)) (s : CachedAsyncSession)
  : CachedAsyncSession :=
  {| _cache_prefix := _cache_prefix s; _ttl := _ttl s;
     _last_from_cache := _last_from_cache s; _local_cache := c |}.

(** A coroutine handed to the event loop: [_clear_cache()] closed over its
    prefix. *)
Inductive Task : Type := ClearCacheTask (cache_prefix : string).

(** The state a call runs in: the session object, the outside world, the
    calls made so far, and the running event loop of the current thread
    with its pending tasks ([None]: no running loop). *)
Record Machine (W : Type) : Type := {
  self : CachedAsyncSession;
  env : W;
  trace : list Event;
  loop : option (list Task);
}.
Arguments self {W} _.
Arguments env {W} _.
Arguments trace {W} _.
Arguments loop {W} _.

(** Computations: state passing with exceptions; the state reached when an
    exception is raised is kept. *)
Definition M (W A : Type) : Type := Machine W -> Res A * Machine W.

#[global] Instance M_ret {W} : MRet (M W) := fun A a m => (Ok a, m).
#[global] Instance M_bind {W} : MBind (M W) := fun A B f c m =>
  match c m with
  | (Ok a, m') => f a m'
  | (Raise e, m') => (Raise e, m')
  end.

Section Library.
Context {W : Type} `{Backend W}.

(** ** Primitive steps *)

Definition lift {A} (r : Res A) : M W A := fun m => (r, m).

(** [try: body  except Exception: handler] *)
Definition try_except {A} (body : M W A) (handler : M W A) : M W A := fun m =>
  match body m with
  | (Ok a, m') => (Ok a, m')
  | (Raise _, m') => handler m'
  end.

(** [with contextlib.suppress(Exception): body] *)
Definition suppress (body : M W unit) : M W unit := try_except body (mret tt).

Definition with_self (s : CachedAsyncSession) (m : Machine W) : Machine W :=
  {| self := s; env := env m; trace := trace m; loop := loop m |}.

Definition with_env (w : W) (m : Machine W) : Machine W :=
  {| self := self m; env := w; trace := trace m; loop := loop m |}.

Definition record (ev : Event) (w : W) (m : Machine W) : Machine W :=
  {| self := self m; env := w; trace := trace m ++ [ev]; loop := loop m |}.

(** A call to a collaborator: logged, then answered by the world. *)
Definition call {A} (ev : Event) (op : W -> Res A * W) : M W A := fun m =>
  let '(r, w) := op (env m) in (r, record ev w m).

Definition print (msg : Message) : M W unit := fun m =>
  (Ok tt, record (Print msg) (env m) m).

(** [time.time()] *)
Definition now : M W Q := fun m =>
  let '(t, w) := time_time (env m) in (Ok t, with_env w m).

Definition get_self : M W CachedAsyncSession := fun m => (Ok (self m), m).

Definition set_self (s : CachedAsyncSession) : M W unit := fun m =>
  (Ok tt, with_self s m).

(** [self._last_from_cache = b] *)
Definition set_last_from_cache (b : bool) : M W unit :=
  s ← get_self; set_self (with_flag b s).

Definition set_local_cache (c : gmap string (Payload * Q)) : M W unit :=
  s ← get_self; set_self (with_local c s).

(** [self._local_cache.pop(key, None)] *)
Definition local_pop (key : string) : M W unit :=
  s ← get_self; set_local_cache (delete key (_local_cache s)).

(** [self._local_cache[key] = entry] *)
Definition local_store (key : string) (entry : Payload * Q) : M W unit :=
  s ← get_self; set_local_cache (<[key := entry]> (_local_cache s)).

(** [params or {}] *)
Definition params_or_empty (params : option PyDict) : PyDict :=
  match params with
  | Some d => d
  | None => []
  end.

(** Truth value of what [redis.get] returned: [None] and empty bytes are false. *)
Definition truthy (cached : option bytes) : bool :=
  match cached with
  | Some (_ :: _) => true
  | _ => false
  end.

(** ** CachedAsyncSession.execute *)

(** Lines 66-69: the remote lookup, a failure read as [None]. *)
Definition remote_lookup (cache_key : string) : M W (option bytes) :=
  try_except (call (RedisGet cache_key) (redis_get cache_key)) (mret None).

(** Lines 70-73: served by the remote tier. *)
Definition serve_remote (cached : option bytes) : M W Returned :=
  print ReturningFromCache;;
  set_last_from_cache true;;
  payload ← lift (pickle_loads (default [] cached));
  mret (Portable payload).

(** Lines 75-84: the local fallback; [Some payload] is the early return. *)
Definition local_lookup (cache_key : string) : M W (option Payload) :=
  s ← get_self;
  match _local_cache s !! cache_key with
  | Some (payload, expiry) =>
      t ← now;
      if Qltb t expiry then
        print ReturningFromCacheLocal;;
        set_last_from_cache true;;
        mret (Some payload)
      else
        local_pop cache_key;;
        mret None
  | None => mret None
  end.

(** Lines 122-126: the remote write, suppressed on failure, then the
    local write. *)
Definition cache_store (cache_key : string) (payload : Payload) : M W unit :=
  s ← get_self;
  suppress (
    data ← lift (pickle_dumps payload);
    call (RedisSet cache_key data (_ttl s)) (redis_set cache_key data (_ttl s)));;
  t ← now;
  local_store cache_key (payload, t + inject_Z (_ttl s))%Q.

(** Lines 86-128: the store is hit, its result materialized and cached. *)
Definition hit_database (statement : Executable) (params : PyDict) (cache_key : string)
  : M W Returned :=
  print HittingTheDatabase;;
  result ← call (StoreExecute statement params) (super_execute statement params);
  set_last_from_cache false;;
  payload ← lift (materialize result);
  cache_store cache_key payload;;
  mret (Portable payload).

(** Lines 74-128: what follows a remote miss. *)
Definition after_remote_miss (statement : Executable) (params : PyDict) (cache_key : string)
  : M W Returned :=
  entry ← local_lookup cache_key;
  match entry with
  | Some payload => mret (Portable payload)
  | None => hit_database statement params cache_key
  end.

(** [await session.execute(statement, params)] *)
Definition execute (statement : Executable) (params : option PyDict) : M W Returned :=
  let params := params_or_empty params in
  if negb (is_select statement) then
    result ← call (StoreExecute statement params) (super_execute statement params);
    mret (Native result)
  else
    s ← get_self;
    cache_key ← lift (make_cache_key statement params (_cache_prefix s));
    cached ← remote_lookup cache_key;
    if truthy cached then serve_remote cached
    else after_remote_miss statement params cache_key.

(** ** CachedAsyncSession.clear_cache and the invalidation listener *)

(** The body shared by [clear_cache] and [_clear_cache]:
    [keys = await redis.keys(f"{prefix}:*")], then the [delete] of all of them when
    [keys] is not empty. *)
Definition delete_namespace (prefix : string) : M W unit :=
  let pattern := (prefix ++ ":*")%string in
  keys ← call (RedisKeys pattern) (redis_keys pattern);
  match keys with
  | [] => mret tt
  | _ :: _ => call (RedisDelete keys) (redis_delete keys);; mret tt
  end.

(** [await session.clear_cache()] *)
Definition clear_cache : M W unit :=
  s ← get_self; delete_namespace (_cache_prefix s).

(** [_clear_cache()], the coroutine of [register_simple_invalidation]. *)
Definition _clear_cache (cache_prefix : string) : M W unit :=
  delete_namespace cache_prefix.

(** [asyncio.get_running_loop()]: [RuntimeError] without a running loop. *)
Definition get_running_loop : M W unit := fun m =>
  match loop m with
  | Some _ => (Ok tt, m)
  | None => (Raise (PyException "RuntimeError"), m)
  end.

(** [loop.create_task(coro)]: the coroutine is queued, not run. *)
Definition create_task (t : Task) : M W unit := fun m =>
  (Ok tt, {| self := self m; env := env m; trace := trace m;
             loop := (fun pending => pending ++ [t]) <$> loop m |}).

(** [_after_execute(conn, clauseelement, multiparams, params, result)],
    registered for the prefix [cache_prefix]. *)
Definition _after_execute (cache_prefix : string) (clauseelement : Executable) : M W unit :=
  suppress (
    txt ← lift (s ← str clauseelement; Ok (PyStr.lower (PyStr.strip s)));
    if is_write_text txt then
      get_running_loop;;
      create_task (ClearCacheTask cache_prefix)
    else mret tt).

(** One turn of the event loop: the oldest pending task runs to its end;
    an exception it raises stays in the task object. *)
Definition run_task (t : Task) : M W unit :=
  match t with
  | ClearCacheTask cache_prefix => suppress (_clear_cache cache_prefix)
  end.

Definition loop_step : M W unit := fun m =>
  match loop m with
  | Some (t :: rest) =>
      run_task t {| self := self m; env := env m; trace := trace m; loop := Some rest |}
  | _ => (Ok tt, m)
  end.

(** The engine fires the hook once after each statement it executes. *)
Fixpoint after_each (cache_prefix : string) (statements : list Executable) : M W unit :=
  match statements with
  | [] => mret tt
  | clauseelement :: rest =>
      _after_execute cache_prefix clauseelement;; after_each cache_prefix rest
  end.

End Library.

(* ===================================================================== *)
(** * MD5 *)
(* ===================================================================== *)

(** [hashlib.md5(data).hexdigest()] (RFC 1321) on 32-bit words held in
    [Z]; words and the length are little-endian. *)
Module Md5.

Definition rotl (n x : Z) : Z :=
  Z.lor (Sha256.w32 (Z.shiftl x n)) (Z.shiftr x (32 - n)).

Definition shifts : list Z :=
  [ 7; 12; 17; 22; 7; 12; 17; 22; 7; 12; 17; 22; 7; 12; 17; 22;
    5; 9; 14; 20; 5; 9; 14; 20; 5; 9; 14; 20; 5; 9; 14; 20;
    4; 11; 16; 23; 4; 11; 16; 23; 4; 11; 16; 23; 4; 11; 16; 23;
    6; 10; 15; 21; 6; 10; 15; 21; 6; 10; 15; 21; 6; 10; 15; 21 ].

Definition K : list Z :=
  [ 3614090360; 3905402710; 606105819; 3250441966; 4118548399; 1200080426;
    2821735955; 4249261313; 1770035416; 2336552879; 4294925233; 2304563134;
    1804603682; 4254626195; 2792965006; 1236535329; 4129170786; 3225465664;
    643717713; 3921069994; 3593408605; 38016083; 3634488961; 3889429448;
    568446438; 3275163606; 4107603335; 1163531501; 2850285829; 4243563512;
    1735328473; 2368359562; 4294588738; 2272392833; 1839030562; 4259657740;
    2763975236; 1272893353; 4139469664; 3200236656; 681279174; 3936430074;
    3572445317; 76029189; 3654602809; 3873151461; 530742520; 3299628645;
    4096336452; 1126891415; 2878612391; 4237533241; 1700485571; 2399980690;
    4293915773; 2240044497; 1873313359; 4264355552; 2734768916; 1309151649;
    4149444226; 3174756917; 718787259; 3951481745 ].

Definition init : list Z := [1732584193; 4023233417; 2562383102; 271733878].

Definition le_bytes (n : nat) (x : Z) : list Z :=
  map (fun i => Z.land (Z.shiftr x (8 * Z.of_nat i)) 255) (seq 0 n).

Definition pad (msg : list Z) : list Z :=
  let l := Z.of_nat (length msg) in
  let k := Z.to_nat ((55 - l) mod 64) in
  msg ++ [128] ++ repeat 0 k ++ le_bytes 8 (8 * l).

Fixpoint words (bs : list Z) : list Z :=
  match bs with
  | a :: b :: c :: d :: rest =>
      (a + Z.shiftl b 8 + Z.shiftl c 16 + Z.shiftl d 24) :: words rest
  | _ => []
  end.

(** One of the 64 operations on the state [(A, B, C, D)]. *)
Definition step (block : list Z) (st : Z * Z * Z * Z) (i : nat) : Z * Z * Z * Z :=
  let '(a, b, c, d) := st in
  let zi := Z.of_nat i in
  let '(f, g) :=
    if zi <? 16 then
      (Z.lor (Z.land b c) (Z.land (Sha256.not32 b) d), zi)
    else if zi <? 32 then
      (Z.lor (Z.land d b) (Z.land (Sha256.not32 d) c), (5 * zi + 1) mod 16)
    else if zi <? 48 then
      (Z.lxor (Z.lxor b c) d, (3 * zi + 5) mod 16)
    else
      (Z.lxor c (Z.lor b (Sha256.not32 d)), (7 * zi) mod 16) in
  let f' := Sha256.add32 (Sha256.add32 (Sha256.add32 f a) (nth i K 0))
                         (nth (Z.to_nat g) block 0) in
  (d, Sha256.add32 b (rotl (nth i shifts 0) f'), b, c).

Definition compress (h : list Z) (block : list Z) : list Z :=
  let st := (nth 0 h 0, nth 1 h 0, nth 2 h 0, nth 3 h 0) in
  let '(a, b, c, d) := fold_left (step block) (seq 0 64) st in
  [Sha256.add32 (nth 0 h 0) a; Sha256.add32 (nth 1 h 0) b;
   Sha256.add32 (nth 2 h 0) c; Sha256.add32 (nth 3 h 0) d].

Fixpoint blocks (n : nat) (ws : list Z) (h : list Z) : list Z :=
  match n with
  | O => h
  | S n' =>
      match ws with
      | [] => h
      | _ => blocks n' (skipn 16 ws) (compress h (firstn 16 ws))
      end
  end.

Definition digest (msg : list Z) : list Z :=
  let ws := words (pad msg) in
  blocks (length ws) ws init.

Definition hex_byte (b : Z) : string :=
  String (PyStr.hex_digit (Z.to_N (Z.land (Z.shiftr b 4) 15)))
         (String (PyStr.hex_digit (Z.to_N (Z.land b 15))) EmptyString).

Definition hex_word (w : Z) : string :=
  fold_right (fun b acc => (hex_byte b ++ acc)%string) EmptyString (le_bytes 4 w).

Definition hexdigest (msg : list Z) : string :=
  fold_right (fun w acc => (hex_word w ++ acc)%string) EmptyString (digest msg).

End Md5.

(* ===================================================================== *)
(** * The prototype's key: hello.get_cache_key *)
(* ===================================================================== *)

(** One character of a JSON string as [json.dumps] writes it (with
    [ensure_ascii], the default): the quote and the backslash are escaped,
    and so is every character outside SPACE..TILDE, with a short escape
    when JSON has one. *)
Definition json_char (c : ascii) : string :=
  let n := PyStr.ord c in
  if Ascii.eqb c PyStr.dquote then String "\" (String c "")
  else if Ascii.eqb c "\"%char then "\\"
  else if (n =? 8)%N then "\b"
  else if (n =? 9)%N then "\t"
  else if (n =? 10)%N then "\n"
  else if (n =? 12)%N then "\f"
  else if (n =? 13)%N then "\r"
  else if PyStr.between 32 126 n then String c ""
  else String "\" (String "u" (String "0" (String "0"
         (String (PyStr.hex_digit (n / 16)) (String (PyStr.hex_digit (n mod 16)) ""))))).

Fixpoint json_body (s : string) : string :=
  match s with
  | EmptyString => EmptyString
  | String c s' => (json_char c ++ json_body s')%string
  end.

Definition json_string (s : string) : string :=
  String PyStr.dquote (json_body s ++ String PyStr.dquote "").

Definition json_value (v : PyVal) : string :=
  match v with
  | VNone => "null"
  | VBool true => "true"
  | VBool false => "false"
  | VInt z => PyStr.of_int z
  | VStr s => json_string s
  end.

Definition json_item (kv : string * PyVal) : string :=
  (json_string (fst kv) ++ ": " ++ json_value (snd kv))%string.

(** The order [sort_keys=True] puts the items in: by key, code point by
    code point (the keys of a dict are distinct, so values never decide). *)
Definition key_le (a b : string * PyVal) : Prop := String.le (fst a) (fst b).

#[global] Instance key_le_dec : RelDecision key_le.
Proof. intros a b. unfold key_le. apply _. Defined.

#[global] Instance key_le_trans : Transitive key_le.
Proof. intros a b c. unfold key_le. apply transitivity. Qed.

#[global] Instance key_le_total : Total key_le.
Proof. intros a b. unfold key_le. apply total, _. Qed.

Definition sort_items (d : PyDict) : PyDict := merge_sort key_le d.

(** [json.dumps(params, sort_keys=True)] *)
Definition json_dumps_sorted (d : PyDict) : string :=
  ("{" ++ join_comma (map json_item (sort_items d)) ++ "}")%string.

(** [hello.get_cache_key(clauseelement, params)]:
    [md5((str(clauseelement) + json.dumps(params, sort_keys=True)).encode("utf-8")).hexdigest()] *)
Definition get_cache_key (clauseelement : Executable) (params : PyDict) : Res string :=
  query ← str clauseelement;
  let query_str := (query ++ json_dumps_sorted params)%string in
  Ok (Md5.hexdigest (PyStr.encode_utf8 query_str)).

(* ===================================================================== *)
(** * Footprints *)
(* ===================================================================== *)

(** The machine each block of [execute] leaves behind, written out; the
    theorems state their conclusions with these. *)
Section Footprints.
Context {W : Type} `{Backend W}.
Implicit Types (m : Machine W) (key : string) (payload : Payload).

(** What the remote lookup concludes, and the machine it leaves. *)
Definition remote_answer key m : option bytes :=
  match (redis_get key (env m)).1 with
  | Ok cached => cached
  | Raise _ => None
  end.

Definition remote_asked key m : Machine W :=
  record (RedisGet key) (redis_get key (env m)).2 m.

(** The machine after a fresh local entry was served. *)
Definition served_locally (w : W) m : Machine W :=
  with_self (with_flag true (self m)) (record (Print ReturningFromCacheLocal) w m).

(** The machine after an expired local entry was dropped. *)
Definition evicted key (w : W) m : Machine W :=
  with_self (with_local (delete key (_local_cache (self m))) (self m)) (with_env w m).

(** The machine after the remote write was attempted: nothing is sent
    when the payload does not serialize. *)
Definition remote_written key payload m : Machine W :=
  match pickle_dumps payload with
  | Ok data =>
      record (RedisSet key data (_ttl (self m)))
             (redis_set key data (_ttl (self m)) (env m)).2 m
  | Raise _ => m
  end.

(** The machine after the local write that follows. *)
Definition locally_written key payload m : Machine W :=
  let m' := remote_written key payload m in
  let '(t, w) := time_time (env m') in
  with_self (with_local (<[key := (payload, t + inject_Z (_ttl (self m)))%Q]>
                           (_local_cache (self m))) (self m))
            (with_env w m').

(** The machine once the store has answered a miss. *)
Definition store_answered (statement : Executable) (params : PyDict) (w : W) m : Machine W :=
  record (StoreExecute statement params) w (record (Print HittingTheDatabase) (env m) m).

(** The remote lookup found nothing usable: the key is absent, its value
    is empty, or the call raised. *)
Definition remote_miss (answer : Res (option bytes)) : Prop :=
  truthy (match answer with Ok cached => cached | Raise _ => None end) = false.

(** Structural introspection of a store result fails: reading the scalars
    raises, or serializing the columns of mapped objects raises, or the
    mappings are consulted (no scalars, or the scalars raised) and raise. *)
Definition introspection_fails (result : RawResult) : Prop :=
  match scalars_all result with
  | Raise _ => True
  | Ok [] => is_Ok (mappings_all result) = false
  | Ok (first :: rest) =>
      has_mapper first = true /\ is_Ok (serialize_columns (first :: rest)) = false
  end.

(** A lowercase hexadecimal digit. *)
Definition is_hex (c : ascii) : bool :=
  let n := PyStr.ord c in PyStr.between 48 57 n || PyStr.between 97 102 n.

(** The calls one [execute] may add to the log, by the path it took:
    nothing, the bypass, a remote hit, a local hit, a miss on which the
    store raised or the payload did not serialize, a miss with its remote
    write. *)
Inductive call_shape (statement : Executable) (params : PyDict) (ttl : Z)
  : list Event -> Prop :=
| shape_no_call : call_shape statement params ttl []
| shape_bypass : call_shape statement params ttl [StoreExecute statement params]
| shape_remote_hit key :
    call_shape statement params ttl [RedisGet key; Print ReturningFromCache]
| shape_local_hit key :
    call_shape statement params ttl [RedisGet key; Print ReturningFromCacheLocal]
| shape_store key :
    call_shape statement params ttl
      [RedisGet key; Print HittingTheDatabase; StoreExecute statement params]
| shape_store_and_set key data :
    call_shape statement params ttl
      [RedisGet key; Print HittingTheDatabase; StoreExecute statement params;
       RedisSet key data ttl].

End Footprints.

(* ===================================================================== *)
(** * A simulated backend *)
(* ===================================================================== *)

(** The model is run against a small world: a remote cache that is either
    up or down and expires its keys, a clock moved by hand, a store that
    answers from a fixed table, and a serializer that round-trips. *)

#[global] Instance exn_eq_dec : EqDecision exn.
Proof. solve_decision. Defined.
#[global] Instance Res_eq_dec {A} `{EqDecision A} : EqDecision (Res A).
Proof. solve_decision. Defined.
#[global] Instance PyVal_eq_dec : EqDecision PyVal.
Proof. solve_decision. Defined.
#[global] Instance PyObj_eq_dec : EqDecision PyObj.
Proof. solve_decision. Defined.
#[global] Instance Item_eq_dec : EqDecision Item.
Proof. solve_decision. Defined.

#[global] Program Instance exn_countable : Countable exn :=
  inj_countable' (fun e => match e with PyException c => c end) PyException _.
Next Obligation. by intros []. Qed.

#[global] Program Instance Res_countable {A} `{Countable A} : Countable (Res A) :=
  inj_countable'
    (fun r => match r with Ok a => inl a | Raise e => inr e end)
    (fun x => match x with inl a => Ok a | inr e => Raise e end) _.
Next Obligation. by intros ? ? ? []. Qed.

#[global] Program Instance PyVal_countable : Countable PyVal :=
  inj_countable'
    (fun v => match v with
              | VNone => inl tt
              | VBool b => inr (inl b)
              | VInt z => inr (inr (inl z))
              | VStr s => inr (inr (inr s))
              end)
    (fun x => match x with
              | inl _ => VNone
              | inr (inl b) => VBool b
              | inr (inr (inl z)) => VInt z
              | inr (inr (inr s)) => VStr s
              end) _.
Next Obligation. by intros []. Qed.

#[global] Program Instance PyObj_countable : Countable PyObj :=
  inj_countable'
    (fun o => match o with OrmInstance c => inl c | Primitive v => inr v end)
    (fun x => match x with inl c => OrmInstance c | inr v => Primitive v end) _.
Next Obligation. by intros []. Qed.

#[global] Program Instance Item_countable : Countable Item :=
  inj_countable'
    (fun i => match i with IRecord d => inl d | IObject o => inr o end)
    (fun x => match x with inl d => IRecord d | inr o => IObject o end) _.
Next Obligation. by intros []. Qed.

Module Sim.

Record World : Type := {
  up : bool;                              (* is the remote cache reachable *)
  kv : gmap string (bytes * Q);           (* remote keys: value, expiry *)
  clock : Q;                              (* seconds *)
  table : Executable -> PyDict -> Res RawResult;   (* the store *)
}.

Definition with_kv (w : World) (d : gmap string (bytes * Q)) : World :=
  {| up := up w; kv := d; clock := clock w; table := table w |}.

(** Time passes between two calls. *)
Definition elapse (dt : Q) (w : World) : World :=
  {| up := up w; kv := kv w; clock := (clock w + dt)%Q; table := table w |}.

Definition unreachable {A} (w : World) : Res A * World :=
  (Raise (PyException "ConnectionError"), w).

Definition live (w : World) (entry : bytes * Q) : bool := Qltb (clock w) (snd entry).

Definition get (key : string) (w : World) : Res (option bytes) * World :=
  if up w then
    (Ok (match kv w !! key with
         | Some entry => if live w entry then Some (fst entry) else None
         | None => None
         end), w)
  else unreachable w.

(** [SET key value EX ttl]: a TTL that is not positive is refused. *)
Definition set (key : string) (value : bytes) (ex : Z) (w : World) : Res unit * World :=
  if up w then
    if (ex <=? 0)%Z then (Raise (PyException "ResponseError"), w)
    else (Ok tt, with_kv w (<[key := (value, clock w + inject_Z ex)%Q]> (kv w)))
  else unreachable w.

(** [KEYS pattern] for the patterns the library builds: a literal prefix
    followed by a star. *)
Definition matches (pattern key : string) : bool :=
  match PyStr.reverse pattern with
  | String "*" p => String.prefix (PyStr.reverse p) key
  | _ => String.eqb pattern key
  end.

Definition keys (pattern : string) (w : World) : Res (list string) * World :=
  if up w then
    (Ok (fst <$> filter (fun e => live w (snd e) && matches pattern (fst e))
                        (map_to_list (kv w))), w)
  else unreachable w.

Definition delete (ks : list string) (w : World) : Res Z * World :=
  if up w then
    (Ok (Z.of_nat (length (filter (fun k => bool_decide (is_Some (kv w !! k))) ks))),
     with_kv w (foldr base.delete (kv w) ks))
  else unreachable w.

Definition run_store (statement : Executable) (params : PyDict) (w : World)
  : Res RawResult * World :=
  (table w statement params, w).

(** The serializer: the payload's code as a number, least byte first. *)
Fixpoint to_bytes (fuel : nat) (n : N) : bytes :=
  match fuel with
  | O => []
  | S fuel' =>
      if (n =? 0)%N then []
      else default Byte.x00 (Byte.of_N (n mod 256)) :: to_bytes fuel' (n / 256)
  end.

Definition of_bytes (b : bytes) : N :=
  fold_right (fun x acc => (Byte.to_N x + 256 * acc)%N) 0%N b.

Definition dumps (p : Payload) : Res bytes :=
  let code := encode p in
  Ok (to_bytes (Pos.size_nat code) (Npos code)).

Definition loads (b : bytes) : Res Payload :=
  match of_bytes b with
  | Npos code =>
      match decode code with
      | Some p => Ok p
      | None => Raise (PyException "UnpicklingError")
      end
  | N0 => Raise (PyException "UnpicklingError")
  end.

#[global] Instance backend : Backend World := {|
  redis_get := get;
  redis_set := set;
  redis_keys := keys;
  redis_delete := delete;
  super_execute := run_store;
  time_time := fun w => (clock w, w);
  pickle_dumps := dumps;
  pickle_loads := loads;
|}.

(** A machine at start-up: a fresh session, nothing logged, a running
    event loop with no pending task. *)
Definition boot (s : CachedAsyncSession) (w : World) : Machine World :=
  {| self := s; env := w; trace := []; loop := Some [] |}.

(** The environment moves while the process waits. *)
Definition wait (dt : Q) (m : Machine World) : Machine World :=
  {| self := self m; env := elapse dt (env m); trace := trace m; loop := loop m |}.

(** A [users] table with one active row, as the ORM returns it. *)
Definition alice : PyDict :=
  [("id", VInt 1); ("username", VStr "alice"); ("is_active", VBool true)]%string.

Definition select_active : Executable :=
  {| isinstance_Select := true;
     str := Ok "SELECT users.id, users.username, users.is_active FROM users WHERE users.is_active IS true"%string |}.

Definition insert_bob : Executable :=
  {| isinstance_Select := false;
     str := Ok "INSERT INTO users (username, is_active) VALUES (:username, :is_active)"%string |}.

Definition users_table (statement : Executable) (params : PyDict) : Res RawResult :=
  if isinstance_Select statement
  then Ok {| scalars_all := Ok [OrmInstance (Ok alice)]; mappings_all := Ok [] |}
  else Ok {| scalars_all := Raise (PyException "ResourceClosedError");
             mappings_all := Raise (PyException "ResourceClosedError") |}.

Definition world0 : World :=
  {| up := true; kv := ∅; clock := 1000; table := users_table |}.

Definition world_down : World :=
  {| up := false; kv := ∅; clock := 1000; table := users_table |}.

(** ** Runs *)

Definition session0 : CachedAsyncSession := __init__ "sqlcache" 60.

Definition m0 : Machine World := boot session0 world0.

Definition m_down : Machine World := boot session0 world_down.

(** The key of [select_active] without parameters under [sqlcache]. *)
Definition key_active : string :=
  "sqlcache:5c0a64c1de40d7d23ad409cb1af80bfc01cb70ef5c8e4befb4a3281ab2267057".

Definition users_result : RawResult :=
  {| scalars_all := Ok [OrmInstance (Ok alice)]; mappings_all := Ok [] |}.

Definition bob : PyDict := [("username", VStr "bob"); ("is_active", VBool true)]%string.

(** A store whose row can no longer be read column by column. *)
Definition detached_result : RawResult :=
  {| scalars_all := Ok [OrmInstance (Raise (PyException "DetachedInstanceError"))];
     mappings_all := Ok [] |}.

Definition world_detached : World :=
  {| up := true; kv := ∅; clock := 1000; table := fun _ _ => Ok detached_result |}.

Definition m_detached : Machine World := boot session0 world_detached.

(** A result whose scalars cannot be read while its mappings can. *)
Definition closed_scalars : RawResult :=
  {| scalars_all := Raise (PyException "InvalidRequestError");
     mappings_all := Ok [alice] |}.

(** A session with a TTL of one second, after a first read and a wait of
    one second. *)
Definition m_expired : Machine World :=
  wait 1 (execute select_active None (boot (__init__ "sqlcache" 1) world0)).2.

(** A statement with two named parameters, bound in two orders. *)
Definition by_id_and_name : Executable :=
  {| isinstance_Select := false;
     str := Ok "select * from users where id = :id and name = :name"%string |}.

Definition id_then_name : PyDict := [("id", VInt 1); ("name", VStr "x")]%string.
Definition name_then_id : PyDict := [("name", VStr "x"); ("id", VInt 1)]%string.

(** A store that is down. *)
Definition world_failing : World :=
  {| up := true; kv := ∅; clock := 1000;
     table := fun _ _ => Raise (PyException "OperationalError") |}.

Definition m_failing : Machine World := boot session0 world_failing.

(** A session configured with a TTL of zero. *)
Definition m_ttl0 : Machine World := boot (__init__ "sqlcache" 0) world0.

(** The machine after a first read on a fresh session. *)
Definition m_read : Machine World := (execute select_active None m0).2.

(** The bytes the serializer gives for the users payload. *)
Definition alice_bytes : bytes :=
  match dumps [IRecord alice] with
  | Ok data => data
  | Raise _ => []
  end.

End Sim.

(* ===================================================================== *)
(** * Theorems *)
(* ===================================================================== *)

(** The digest of FIPS 180-4's one-block test vector. *)
Example sha256_abc :
  Sha256.hexdigest (PyStr.encode_utf8 "abc")
  = "ba7816bf8f01cfea414140de5dae2223b00361a396177a9cb410ff61f20015ad"%string.
Proof. vm_compute. reflexivity. Qed.

(** ** Basic facts *)

Lemma Qltb_lt (a b : Q) : Qltb a b = true <-> (a < b)%Q.
Proof.
  unfold Qltb. rewrite negb_true_iff. split.
  - intros Hle. apply Qnot_le_lt. intros Hba.
    apply Qle_bool_iff in Hba. congruence.
  - intros Hlt. destruct (Qle_bool b a) eqn:E; [|done].
    apply Qle_bool_iff in E. exfalso. eapply Qlt_not_le; eauto.
Qed.

Lemma Qltb_nlt (a b : Q) : Qltb a b = false <-> ~ (a < b)%Q.
Proof. rewrite <- Qltb_lt. destruct (Qltb a b); split; congruence. Qed.

(** The classifier says no exactly when the statement is not a [Select]
    and its text, if it has one, does not start with [select]. *)
Lemma is_select_false (statement : Executable) :
  is_select statement = false <->
  isinstance_Select statement = false /\
  (forall s, str statement = Ok s ->
             PyStr.startswith (PyStr.lower (PyStr.strip s)) "select" = false).
Proof.
  unfold is_select. destruct (isinstance_Select statement); split.
  - discriminate.
  - intros [? _]. discriminate.
  - intros Hs. split; [done|]. intros s Hstr. by rewrite Hstr in Hs.
  - intros [_ Hs]. destruct (str statement) as [s|e]; [by apply Hs | done].
Qed.

(** The key is a function of the statement's text, the [repr] of the
    parameters and the prefix, and of nothing else. *)
Lemma make_cache_key_same_raw (s1 s2 : Executable) (d1 d2 : PyDict) (prefix : string) :
  str s1 = str s2 ->
  repr_dict d1 = repr_dict d2 ->
  make_cache_key s1 d1 prefix = make_cache_key s2 d2 prefix.
Proof. unfold make_cache_key. by intros -> ->. Qed.

(** ** Materialization never raises *)

Lemma mappings_fallback_total (result : RawResult) :
  exists payload, try_exceptR (mappings_payload result) (Ok []) = Ok payload.
Proof.
  unfold mappings_payload.
  destruct (mappings_all result) as [rows|e]; simpl; eauto.
Qed.

Lemma materialize_total (result : RawResult) :
  exists payload, materialize result = Ok payload.
Proof.
  unfold materialize, materialize_body.
  destruct (scalars_all result) as [[|first rest]|e]; cbn -[serialize_columns].
  - destruct (mappings_fallback_total result) as [p ->]. simpl. eauto.
  - destruct (has_mapper first); [|simpl; eauto].
    destruct (serialize_columns (first :: rest)); simpl; eauto.
  - apply mappings_fallback_total.
Qed.

Section Steps.
Context {W : Type} `{Backend W}.
Implicit Types (m : Machine W) (key : string) (payload : Payload).

(** ** One equation per block of [execute] *)

Lemma remote_lookup_eq key m :
  remote_lookup key m = (Ok (remote_answer key m), remote_asked key m).
Proof.
  unfold remote_answer, remote_asked.
  unfold remote_lookup, try_except, call.
  destruct (redis_get key (env m)) as [[cached|e] w]; reflexivity.
Qed.

Lemma serve_remote_eq cached m :
  serve_remote cached m =
    (Portable <$> pickle_loads (default [] cached),
     with_self (with_flag true (self m)) (record (Print ReturningFromCache) (env m) m)).
Proof.
  unfold serve_remote, print, set_last_from_cache, get_self, set_self, lift,
    mbind, M_bind, mret, M_ret. simpl.
  destruct (pickle_loads _); reflexivity.
Qed.

Lemma local_lookup_eq key m :
  local_lookup key m =
    match _local_cache (self m) !! key with
    | Some (payload, expiry) =>
        let '(t, w) := time_time (env m) in
        if Qltb t expiry then (Ok (Some payload), served_locally w m)
        else (Ok None, evicted key w m)
    | None => (Ok None, m)
    end.
Proof.
  unfold local_lookup, get_self, mbind, M_bind. simpl.
  destruct (_local_cache (self m) !! key) as [[payload expiry]|]; [|reflexivity].
  unfold now. destruct (time_time (env m)) as [t w].
  destruct (Qltb t expiry); reflexivity.
Qed.

Lemma remote_written_self key payload m : self (remote_written key payload m) = self m.
Proof. unfold remote_written. by destruct (pickle_dumps payload). Qed.

Lemma cache_store_eq key payload m :
  cache_store key payload m = (Ok tt, locally_written key payload m).
Proof.
  unfold cache_store, locally_written, remote_written, suppress, try_except,
    get_self, lift, call, mbind, M_bind, mret, M_ret. simpl.
  destruct (pickle_dumps payload) as [data|e]; simpl.
  - destruct (redis_set key data (_ttl (self m)) (env m)) as [[[]|e] w]; simpl;
      unfold now; simpl; destruct (time_time w) as [t w']; reflexivity.
  - unfold now. destruct (time_time (env m)) as [t w']. reflexivity.
Qed.

Lemma hit_database_eq statement params key m :
  hit_database statement params key m =
    match super_execute statement params (env m) with
    | (Ok result, w) =>
        let m' := with_self (with_flag false (self m)) (store_answered statement params w m) in
        match materialize result with
        | Ok payload => (Ok (Portable payload), locally_written key payload m')
        | Raise e => (Raise e, m')
        end
    | (Raise e, w) => (Raise e, store_answered statement params w m)
    end.
Proof.
  unfold hit_database, print, call, set_last_from_cache, get_self, set_self, lift,
    mbind, M_bind, mret, M_ret. simpl.
  destruct (super_execute statement params (env m)) as [[result|e] w]; [|reflexivity].
  fold (store_answered statement params w m).
  destruct (materialize result) as [payload|e]; [|reflexivity].
  rewrite cache_store_eq. reflexivity.
Qed.

Lemma after_remote_miss_eq statement params key m :
  after_remote_miss statement params key m =
    match local_lookup key m with
    | (Ok (Some payload), m') => (Ok (Portable payload), m')
    | (Ok None, m') => hit_database statement params key m'
    | (Raise e, m') => (Raise e, m')
    end.
Proof.
  unfold after_remote_miss, mbind, M_bind.
  destruct (local_lookup key m) as [[[payload|]|e] m']; reflexivity.
Qed.

Lemma execute_bypass_eq statement params m :
  is_select statement = false ->
  execute statement params m =
    (Native <$> (super_execute statement (params_or_empty params) (env m)).1,
     record (StoreExecute statement (params_or_empty params))
            (super_execute statement (params_or_empty params) (env m)).2 m).
Proof.
  intros Hsel. unfold execute. rewrite Hsel. simpl.
  unfold mbind, M_bind, call.
  destruct (super_execute _ _ _) as [[result|e] w]; reflexivity.
Qed.

Lemma execute_read_eq statement params key m :
  is_select statement = true ->
  make_cache_key statement (params_or_empty params) (_cache_prefix (self m)) = Ok key ->
  execute statement params m =
    if truthy (remote_answer key m)
    then serve_remote (remote_answer key m) (remote_asked key m)
    else after_remote_miss statement (params_or_empty params) key (remote_asked key m).
Proof.
  intros Hsel Hkey. unfold execute. rewrite Hsel. simpl.
  unfold mbind at 1, M_bind at 1, get_self.
  unfold mbind at 1, M_bind at 1, lift. rewrite Hkey.
  unfold mbind at 1, M_bind at 1. rewrite remote_lookup_eq.
  by destruct (truthy (remote_answer key m)).
Qed.

End Steps.

(* ===================================================================== *)
(** * The properties of the design document *)
(* ===================================================================== *)

Section Claims.
Context {W : Type} `{Backend W}.
Implicit Types (m : Machine W) (key : string) (payload : Payload).

(** C4. A statement that is not classified as a read (not a [Select]
    instance, and no text starting with [select]) bypasses the cache:
    [execute] makes one call, to the store, with the statement and its
    parameters; it neither reads nor writes the remote or the local tier,
    leaves the session object as it was, and hands back the store's native
    result (or the store's exception) unchanged. *)
Theorem execute_bypasses_non_read statement params m :
  is_select statement = false ->
  execute statement params m =
    (Native <$> (super_execute statement (params_or_empty params) (env m)).1,
     {| self := self m;
        env := (super_execute statement (params_or_empty params) (env m)).2;
        trace := trace m ++ [StoreExecute statement (params_or_empty params)];
        loop := loop m |}).
Proof. intros Hsel. by rewrite execute_bypass_eq. Qed.

(** C10. [clear_cache] suppresses nothing: an exception raised by the
    remote [keys] call, or by the [delete] call that follows a non-empty
    answer, is the outcome of [clear_cache]; and the session object, its
    local tier included, is the same after the call as before. *)
Theorem clear_cache_propagates m :
  let pattern := (_cache_prefix (self m) ++ ":*")%string in
  (forall e w, redis_keys pattern (env m) = (Raise e, w) ->
               (clear_cache m).1 = Raise e) /\
  (forall k ks w e w',
      redis_keys pattern (env m) = (Ok (k :: ks), w) ->
      redis_delete (k :: ks) w = (Raise e, w') ->
      (clear_cache m).1 = Raise e) /\
  self (clear_cache m).2 = self m /\
  _local_cache (self (clear_cache m).2) = _local_cache (self m).
Proof.
  intros pattern.
  unfold clear_cache, delete_namespace, get_self, call, mbind, M_bind, mret, M_ret.
  fold pattern. simpl.
  destruct (redis_keys pattern (env m)) as [[[|k ks]|e] w] eqn:Hkeys; simpl.
  - repeat split; intros; congruence.
  - destruct (redis_delete (k :: ks) w) as [[n|e] w'] eqn:Hdel; simpl;
      repeat split; intros; congruence.
  - repeat split; intros; congruence.
Qed.

(** C9. The invalidation hook.  [_after_execute] never raises, whatever
    the statement and the state of the event loop, and makes no call to the
    remote cache itself: it leaves the session, the world and the call log
    as they were.  For a statement whose stripped, lowercased text starts
    with [insert], [update] or [delete], and with an event loop running,
    it queues exactly one task behind the pending ones; for any other text
    it queues nothing.  The queued task, when the loop later runs it, asks
    the remote cache for the keys matching [prefix:*] and deletes exactly
    the keys it was given; an exception raised there stays in the task. *)
Theorem invalidation_is_scheduled_and_contained cache_prefix clauseelement m :
  (exists m',
      _after_execute cache_prefix clauseelement m = (Ok tt, m') /\
      self m' = self m /\ env m' = env m /\ trace m' = trace m /\
      (forall s pending,
          str clauseelement = Ok s ->
          is_write_text (PyStr.lower (PyStr.strip s)) = true ->
          loop m = Some pending ->
          loop m' = Some (pending ++ [ClearCacheTask cache_prefix])) /\
      (forall s,
          str clauseelement = Ok s ->
          is_write_text (PyStr.lower (PyStr.strip s)) = false ->
          loop m' = loop m)) /\
  (forall m0 : Machine W,
      let pattern := (cache_prefix ++ ":*")%string in
      exists m1,
        run_task (ClearCacheTask cache_prefix) m0 = (Ok tt, m1) /\
        self m1 = self m0 /\
        match redis_keys pattern (env m0) with
        | (Ok (k :: ks), w) =>
            trace m1 = trace m0 ++ [RedisKeys pattern; RedisDelete (k :: ks)] /\
            env m1 = (redis_delete (k :: ks) w).2
        | (_, w) => trace m1 = trace m0 ++ [RedisKeys pattern] /\ env m1 = w
        end).
Proof.
  split.
  - unfold _after_execute, suppress, try_except, lift, get_running_loop, create_task,
      mbind, M_bind, mret, M_ret.
    destruct (str clauseelement) as [s|e]; simpl.
    + destruct (is_write_text (PyStr.lower (PyStr.strip s))) eqn:Hw.
      * destruct (loop m) as [pending|] eqn:Hloop; simpl.
        -- eexists. split; [reflexivity|]. simpl. rewrite Hloop.
           repeat split; auto; intros; simplify_eq; try congruence; reflexivity.
        -- exists m. repeat split; auto; intros; simplify_eq; congruence.
      * exists m. repeat split; auto; intros; simplify_eq; congruence.
    + exists m. repeat split; auto; intros; simplify_eq.
  - intros m0 pattern.
    unfold run_task, _clear_cache, delete_namespace, suppress, try_except, call,
      mbind, M_bind, mret, M_ret. fold pattern.
    destruct (redis_keys pattern (env m0)) as [[[|k ks]|e] w]; simpl.
    + eexists. split; [reflexivity|]. simpl. auto.
    + destruct (redis_delete (k :: ks) w) as [[n|e] w']; simpl;
        (eexists; split; [reflexivity|]); simpl; rewrite <- app_assoc; auto.
    + eexists. split; [reflexivity|]. simpl. auto.
Qed.

(** C7. The order of a lookup.  The remote tier is asked first.  A
    non-empty remote value is unpickled and returned at once: the local
    tier, the clock and the store are not touched.  After a remote miss or
    failure the local tier is consulted: an entry whose expiry is strictly
    greater than the clock reading is returned and kept, the store not
    being called; an entry that is not is removed from the local tier (it
    is the only entry removed), so that the local tier has nothing under
    the key when the call goes on to the store, and still has nothing
    there if the store then raises; with no entry the call goes on to the
    store as well; and going on to the store starts with the call to the
    store. *)
Theorem lookup_order statement params key m :
  is_select statement = true ->
  make_cache_key statement (params_or_empty params) (_cache_prefix (self m)) = Ok key ->
  let p := params_or_empty params in
  (forall b bs w,
      redis_get key (env m) = (Ok (Some (b :: bs)), w) ->
      exists m',
        execute statement params m = (Portable <$> pickle_loads (b :: bs), m') /\
        m' = {| self := with_flag true (self m); env := w;
                trace := trace m ++ [RedisGet key; Print ReturningFromCache];
                loop := loop m |} /\
        _last_from_cache (self m') = Some true /\
        _local_cache (self m') = _local_cache (self m)) /\
  (forall answer w,
      redis_get key (env m) = (answer, w) ->
      remote_miss answer ->
      (forall payload expiry t w',
          _local_cache (self m) !! key = Some (payload, expiry) ->
          time_time w = (t, w') ->
          ((t < expiry)%Q ->
           exists m',
             execute statement params m = (Ok (Portable payload), m') /\
             m' = {| self := with_flag true (self m); env := w';
                     trace := trace m ++ [RedisGet key; Print ReturningFromCacheLocal];
                     loop := loop m |} /\
             _last_from_cache (self m') = Some true /\
             _local_cache (self m') = _local_cache (self m) /\
             _local_cache (self m') !! key = Some (payload, expiry)) /\
          (~ (t < expiry)%Q ->
           exists m_evicted,
             execute statement params m = hit_database statement p key m_evicted /\
             m_evicted =
               {| self := with_local (delete key (_local_cache (self m))) (self m);
                  env := w'; trace := trace m ++ [RedisGet key]; loop := loop m |} /\
             _local_cache (self m_evicted) !! key = None /\
             (forall k, k <> key ->
                        _local_cache (self m_evicted) !! k = _local_cache (self m) !! k) /\
             _last_from_cache (self m_evicted) = _last_from_cache (self m) /\
             (forall e m',
                 execute statement params m = (Raise e, m') ->
                 _local_cache (self m') !! key = None /\
                 (forall k, k <> key ->
                            _local_cache (self m') !! k = _local_cache (self m) !! k)))) /\
      (_local_cache (self m) !! key = None ->
       execute statement params m =
         hit_database statement p key (record (RedisGet key) w m))) /\
  (forall m2 : Machine W,
      exists rest,
        trace (hit_database statement p key m2).2 =
          trace m2 ++ [Print HittingTheDatabase; StoreExecute statement p] ++ rest).
Proof.
  intros Hsel Hkey p. split; [|split].
  - intros b bs w Hget. eexists. split; [|split; [reflexivity|done]].
    rewrite (execute_read_eq _ _ key) by done.
    unfold remote_answer, remote_asked. rewrite Hget. simpl.
    rewrite serve_remote_eq. simpl.
    unfold with_self, record. simpl. by rewrite <- app_assoc.
  - intros answer w Hget Hmiss.
    assert (execute statement params m =
              after_remote_miss statement p key (record (RedisGet key) w m)) as Hexec.
    { rewrite (execute_read_eq _ _ key) by done.
      unfold remote_answer, remote_asked. rewrite Hget. simpl.
      unfold remote_miss in Hmiss. by rewrite Hmiss. }
    rewrite Hexec, after_remote_miss_eq, local_lookup_eq. simpl. split.
    + intros payload expiry t w' Hentry Htime. rewrite Hentry, Htime. split.
      * intros Hlt. apply Qltb_lt in Hlt. rewrite Hlt.
        eexists. split; [|split; [reflexivity|done]].
        unfold served_locally, with_self, record. simpl. by rewrite <- app_assoc.
      * intros Hnlt. apply Qltb_nlt in Hnlt. rewrite Hnlt.
        eexists. split; [reflexivity|]. split; [reflexivity|]. simpl.
        split; [apply lookup_delete_eq|].
        split; [intros k Hk; by apply lookup_delete_ne|].
        split; [done|].
        intros e m'. rewrite hit_database_eq. simpl.
        destruct (super_execute statement p w') as [[result|e0] w3].
        -- destruct (materialize_total result) as [payload' ->]. discriminate.
        -- intros [= _ <-]. simpl.
           split; [apply lookup_delete_eq | intros k Hk; by apply lookup_delete_ne].
    + intros Hnone. by rewrite Hnone.
  - intros m2. rewrite hit_database_eq.
    destruct (super_execute statement p (env m2)) as [[result|e] w].
    + destruct (materialize_total result) as [payload ->]. simpl.
      unfold locally_written, remote_written. simpl.
      destruct (pickle_dumps payload) as [data|e]; simpl.
      * destruct (time_time _) as [t w']. simpl.
        exists [RedisSet key data (_ttl (self m2))].
        by rewrite <- !app_assoc.
      * destruct (time_time _) as [t w']. simpl.
        exists []. by rewrite <- !app_assoc.
    + exists []. simpl. by rewrite <- !app_assoc.
Qed.

(** C6. The cache write after a miss.  When both tiers miss and the store
    answers, [execute] returns the materialized payload and the local tier
    holds it under the key with expiry [t + ttl], [t] being the clock as
    read after the remote write was attempted.  When the payload
    serializes, the remote [set] is called with the key, the bytes and the
    configured TTL, right after the store call; whatever that call answers
    (success or exception), the result, the local entry and the clock
    reading are as stated. *)
Theorem cache_write_after_miss statement params key m answer w m2 result w3 :
  is_select statement = true ->
  make_cache_key statement (params_or_empty params) (_cache_prefix (self m)) = Ok key ->
  redis_get key (env m) = (answer, w) ->
  remote_miss answer ->
  local_lookup key (record (RedisGet key) w m) = (Ok None, m2) ->
  super_execute statement (params_or_empty params) (env m2) = (Ok result, w3) ->
  let p := params_or_empty params in
  let ttl := _ttl (self m) in
  exists payload m' t,
    materialize result = Ok payload /\
    execute statement params m = (Ok (Portable payload), m') /\
    _local_cache (self m') =
      <[key := (payload, t + inject_Z ttl)%Q]> (_local_cache (self m2)) /\
    _local_cache (self m') !! key = Some (payload, t + inject_Z ttl)%Q /\
    (forall e, pickle_dumps payload = Raise e ->
       trace m' = trace m2 ++ [Print HittingTheDatabase; StoreExecute statement p] /\
       time_time w3 = (t, env m')) /\
    (forall data,
       pickle_dumps payload = Ok data ->
       trace m' = trace m2 ++ [Print HittingTheDatabase; StoreExecute statement p;
                               RedisSet key data ttl] /\
       time_time (redis_set key data ttl w3).2 = (t, env m')).
Proof.
  intros Hsel Hkey Hget Hmiss Hlocal Hstore p ttl. subst p.
  assert (_ttl (self m2) = ttl) as Httl.
  { rewrite local_lookup_eq in Hlocal. simpl in Hlocal.
    destruct (_local_cache (self m) !! key) as [[payload expiry]|].
    - destruct (time_time w) as [t w'].
      destruct (Qltb t expiry); inversion Hlocal; reflexivity.
    - inversion Hlocal. reflexivity. }
  destruct (materialize_total result) as [payload Hmat].
  assert (execute statement params m =
            (Ok (Portable payload),
             locally_written key payload
               (with_self (with_flag false (self m2))
                  (store_answered statement (params_or_empty params) w3 m2))))
    as Hexec.
  { rewrite (execute_read_eq _ _ key) by done.
    unfold remote_answer, remote_asked. rewrite Hget. simpl.
    unfold remote_miss in Hmiss. rewrite Hmiss.
    rewrite after_remote_miss_eq, Hlocal, hit_database_eq.
    rewrite Hstore. simpl. by rewrite Hmat. }
  unfold locally_written, remote_written in Hexec. simpl in Hexec.
  rewrite Httl in Hexec.
  destruct (pickle_dumps payload) as [data|e] eqn:Hdumps; simpl in Hexec.
  - destruct (time_time (redis_set key data ttl w3).2) as [t w4] eqn:Htime.
    eexists payload, _, t. split; [done|]. split; [exact Hexec|]. simpl.
    split; [done|]. split; [apply lookup_insert_eq|].
    split; [intros; congruence|].
    intros data' Hd. rewrite Hdumps in Hd. injection Hd as <-.
    split; [by rewrite <- !app_assoc | done].
  - destruct (time_time w3) as [t w4] eqn:Htime.
    eexists payload, _, t. split; [done|]. split; [exact Hexec|]. simpl.
    split; [done|]. split; [apply lookup_insert_eq|].
    split; [|intros; congruence].
    intros _ _. split; [by rewrite <- !app_assoc | done].
Qed.

(** C1. A failing remote lookup.  When [redis.get] raises during the
    lookup of a read, [execute] goes on exactly as it does for an absent
    key: with the local tier, then the store.  The remote exception never
    reaches the caller, and the remote write failing too changes nothing:
    the call ends in one of three ways, decided by the local tier and by
    the store at the world of this very call.  Either the local tier
    serves the payload (flag [True]); or the local tier has nothing, the
    store answers, and the call returns the materialized payload (flag
    [False]); or the local tier has nothing, the store raises, and the
    call raises the store's exception.  So the read succeeds whenever the
    store, if it is asked, answers. *)
Theorem remote_failure_is_a_miss statement params key m e w :
  is_select statement = true ->
  make_cache_key statement (params_or_empty params) (_cache_prefix (self m)) = Ok key ->
  redis_get key (env m) = (Raise e, w) ->
  let p := params_or_empty params in
  let m1 := record (RedisGet key) w m in
  execute statement params m = after_remote_miss statement p key m1 /\
  (forall (m0 : Machine W) w0,
      _cache_prefix (self m0) = _cache_prefix (self m) ->
      redis_get key (env m0) = (Ok None, w0) ->
      execute statement params m0 =
        after_remote_miss statement p key (record (RedisGet key) w0 m0)) /\
  ((exists payload m2,
       local_lookup key m1 = (Ok (Some payload), m2) /\
       execute statement params m = (Ok (Portable payload), m2) /\
       _last_from_cache (self m2) = Some true) \/
   (exists m2 result w3 payload m',
       local_lookup key m1 = (Ok None, m2) /\
       super_execute statement p (env m2) = (Ok result, w3) /\
       materialize result = Ok payload /\
       execute statement params m = (Ok (Portable payload), m') /\
       _last_from_cache (self m') = Some false /\
       (exists expiry, _local_cache (self m') !! key = Some (payload, expiry))) \/
   (exists m2 e' w3 m',
       local_lookup key m1 = (Ok None, m2) /\
       super_execute statement p (env m2) = (Raise e', w3) /\
       execute statement params m = (Raise e', m') /\
       env m' = w3)).
Proof.
  intros Hsel Hkey Hget p m1. subst p m1.
  assert (execute statement params m =
            after_remote_miss statement (params_or_empty params) key
              (record (RedisGet key) w m)) as Hexec.
  { rewrite (execute_read_eq _ _ key) by done.
    unfold remote_answer, remote_asked. by rewrite Hget. }
  split; [exact Hexec|]. split.
  { intros m0 w0 Hprefix Hget0.
    rewrite (execute_read_eq _ _ key) by (by rewrite ?Hprefix).
    unfold remote_answer, remote_asked. by rewrite Hget0. }
  rewrite Hexec, after_remote_miss_eq.
  destruct (local_lookup key (record (RedisGet key) w m)) as [[[cached|]|e0] m2] eqn:Hlocal.
  - left. exists cached, m2. split; [done|]. split; [done|].
    rewrite local_lookup_eq in Hlocal. simpl in Hlocal.
    destruct (_local_cache (self m) !! key) as [[payload expiry]|]; [|discriminate].
    destruct (time_time w) as [t w']. destruct (Qltb t expiry); [|discriminate].
    by injection Hlocal as _ <-.
  - right. rewrite hit_database_eq.
    destruct (super_execute statement (params_or_empty params) (env m2))
      as [[result|e0] w3] eqn:Hstore.
    + left. destruct (materialize_total result) as [payload Hmat]. rewrite Hmat. simpl.
      eexists m2, result, w3, payload, _.
      split; [done|]. split; [done|]. split; [done|]. split; [reflexivity|].
      unfold locally_written. destruct (time_time _) as [t w4]. simpl.
      split; [done|]. eexists. apply lookup_insert_eq.
    + right. eexists m2, e0, w3, _. split; [done|]. split; [done|]. split; [reflexivity|done].
  - rewrite local_lookup_eq in Hlocal. simpl in Hlocal.
    destruct (_local_cache (self m) !! key) as [[payload expiry]|]; [|discriminate].
    destruct (time_time w) as [t w']. destruct (Qltb t expiry); discriminate.
Qed.

(** C5, as amended.  On a miss of a read that the store answers,
    materialization never raises and [execute] returns the materialized
    payload, which is also what the local tier then holds.  The payload is
    empty when serializing the columns of mapped objects fails, and when
    the mappings are consulted and fail; when reading the scalars fails
    the mappings are used instead, so the payload is the list of their
    rows when they can be read. *)
Theorem materialization_recovers statement params key m answer w m2 result w3 :
  is_select statement = true ->
  make_cache_key statement (params_or_empty params) (_cache_prefix (self m)) = Ok key ->
  redis_get key (env m) = (answer, w) ->
  remote_miss answer ->
  local_lookup key (record (RedisGet key) w m) = (Ok None, m2) ->
  super_execute statement (params_or_empty params) (env m2) = (Ok result, w3) ->
  exists payload m',
    materialize result = Ok payload /\
    execute statement params m = (Ok (Portable payload), m') /\
    (exists expiry, _local_cache (self m') !! key = Some (payload, expiry)) /\
    (forall first rest e,
        scalars_all result = Ok (first :: rest) ->
        has_mapper first = true ->
        serialize_columns (first :: rest) = Raise e ->
        payload = []) /\
    (forall e,
        mappings_all result = Raise e ->
        scalars_all result = Ok [] \/ (exists e', scalars_all result = Raise e') ->
        payload = []) /\
    (forall e rows,
        scalars_all result = Raise e ->
        mappings_all result = Ok rows ->
        payload = map IRecord rows).
Proof.
  intros Hsel Hkey Hget Hmiss Hlocal Hstore.
  destruct (materialize_total result) as [payload Hmat].
  exists payload.
  assert (execute statement params m =
            (Ok (Portable payload),
             locally_written key payload
               (with_self (with_flag false (self m2))
                  (store_answered statement (params_or_empty params) w3 m2))))
    as Hexec.
  { rewrite (execute_read_eq _ _ key) by done.
    unfold remote_answer, remote_asked. rewrite Hget. simpl.
    unfold remote_miss in Hmiss. rewrite Hmiss.
    rewrite after_remote_miss_eq, Hlocal, hit_database_eq.
    rewrite Hstore. simpl. by rewrite Hmat. }
  eexists. split; [done|]. split; [exact Hexec|]. split.
  { unfold locally_written. destruct (time_time _) as [t w4]. simpl.
    eexists. apply lookup_insert_eq. }
  unfold materialize, materialize_body, mappings_payload in Hmat.
  split; [|split].
  - intros first rest e Hsc Hmap Hser.
    rewrite Hsc in Hmat. cbn -[serialize_columns] in Hmat.
    rewrite Hmap, Hser in Hmat. simpl in Hmat. congruence.
  - intros e Hmp [Hsc|[e' Hsc]]; rewrite Hsc, Hmp in Hmat; simpl in Hmat; congruence.
  - intros e rows Hsc Hmp. rewrite Hsc, Hmp in Hmat. simpl in Hmat. congruence.
Qed.

(** C3, as amended.  Read-through idempotence holds for a positive TTL.
    A read is issued twice in a row with the same parameters.  Before the
    first call neither tier has the key; the store answers; the TTL is
    positive; and the cache is available: the remote write of the first
    call succeeds, the remote tier gives back, to a [get] that follows a
    successful [set] with a positive TTL, the bytes that were set, and the
    payload's bytes load back to the payload.  Then the first call is
    served by the store (flag [False]) and the second, issued on the
    machine the first one left, is served by the cache (flag [True], no
    store call), and both return the same payload. *)
Theorem read_through_idempotence
    statement params key m0 answer w result w3 payload b data w4 :
  is_select statement = true ->
  make_cache_key statement (params_or_empty params) (_cache_prefix (self m0)) = Ok key ->
  redis_get key (env m0) = (answer, w) ->
  remote_miss answer ->
  _local_cache (self m0) !! key = None ->
  super_execute statement (params_or_empty params) w = (Ok result, w3) ->
  materialize result = Ok payload ->
  (0 < _ttl (self m0))%Z ->
  pickle_dumps payload = Ok (b :: data) ->
  redis_set key (b :: data) (_ttl (self m0)) w3 = (Ok tt, w4) ->
  (forall k v ex w0 w1,
      (0 < ex)%Z ->
      redis_set k v ex w0 = (Ok tt, w1) ->
      (redis_get k (time_time w1).2).1 = Ok (Some v)) ->
  pickle_loads (b :: data) = Ok payload ->
  exists m1 m2,
    execute statement params m0 = (Ok (Portable payload), m1) /\
    _last_from_cache (self m1) = Some false /\
    In (StoreExecute statement (params_or_empty params)) (trace m1) /\
    execute statement params m1 = (Ok (Portable payload), m2) /\
    _last_from_cache (self m2) = Some true /\
    trace m2 = trace m1 ++ [RedisGet key; Print ReturningFromCache].
Proof.
  intros Hsel Hkey Hget Hmiss Hcold Hstore Hmat Hpos Hdumps Hset Hcoherent Hloads.
  assert (execute statement params m0 =
            (Ok (Portable payload),
             locally_written key payload
               (with_self (with_flag false (self m0))
                  (store_answered statement (params_or_empty params) w3
                     (record (RedisGet key) w m0))))) as Hfirst.
  { rewrite (execute_read_eq _ _ key) by done.
    unfold remote_answer, remote_asked. rewrite Hget. simpl.
    unfold remote_miss in Hmiss. rewrite Hmiss.
    rewrite after_remote_miss_eq, local_lookup_eq. simpl. rewrite Hcold.
    rewrite hit_database_eq. simpl. rewrite Hstore. simpl. by rewrite Hmat. }
  unfold locally_written, remote_written in Hfirst. simpl in Hfirst.
  rewrite Hdumps, Hset in Hfirst. simpl in Hfirst.
  pose proof (Hcoherent _ _ _ _ _ Hpos Hset) as Hget2.
  destruct (time_time w4) as [t w5] eqn:Htime. simpl in Hget2.
  destruct (redis_get key w5) as [answer2 w6] eqn:Hget2'. simpl in Hget2. subst answer2.
  eexists _, _. split; [exact Hfirst|]. split; [done|]. split.
  { simpl. rewrite !in_app_iff. simpl. tauto. }
  rewrite (execute_read_eq _ _ key) by done.
  unfold remote_answer, remote_asked. simpl. rewrite Hget2'. simpl.
  rewrite serve_remote_eq. simpl. rewrite Hloads. simpl.
  split; [reflexivity|]. split; [done|]. simpl. by rewrite <- !app_assoc.
Qed.

End Claims.

(* ===================================================================== *)
(** * The properties on the simulated backend *)
(* ===================================================================== *)

(** The bypass of [INSERT INTO users ...] on a fresh session. *)
Lemma execute_bypasses_non_read_witness :
  is_select Sim.insert_bob = false /\
  execute Sim.insert_bob (Some Sim.bob) Sim.m0 =
    (Native <$> (super_execute Sim.insert_bob (params_or_empty (Some Sim.bob)) (env Sim.m0)).1,
     {| self := self Sim.m0;
        env := (super_execute Sim.insert_bob (params_or_empty (Some Sim.bob)) (env Sim.m0)).2;
        trace := trace Sim.m0 ++ [StoreExecute Sim.insert_bob (params_or_empty (Some Sim.bob))];
        loop := loop Sim.m0 |}).
Proof.
  split; [reflexivity|].
  apply (execute_bypasses_non_read Sim.insert_bob (Some Sim.bob) Sim.m0).
  reflexivity.
Defined.

(** C2, on the code: two bindings of the same two parameters, equal as
    dictionaries (the same items, in another order), are given different
    keys, because [repr(params)] follows the insertion order. *)
Theorem make_cache_key_order_sensitive :
  Permutation Sim.id_then_name Sim.name_then_id /\
  make_cache_key Sim.by_id_and_name Sim.id_then_name "sqlcache" =
    Ok "sqlcache:b6987e2931c866b78117582a464a765321d72ac5512089d4bb19aa614f6100ec"%string /\
  make_cache_key Sim.by_id_and_name Sim.name_then_id "sqlcache" =
    Ok "sqlcache:c17471d097c47ebd8d0ea1389370ed4cd5738a839d26206c1f9b90a0daa606e1"%string /\
  make_cache_key Sim.by_id_and_name Sim.id_then_name "sqlcache" <>
    make_cache_key Sim.by_id_and_name Sim.name_then_id "sqlcache".
Proof.
  split; [apply perm_swap|].
  split; [vm_compute; reflexivity|].
  split; [vm_compute; reflexivity|].
  vm_compute. discriminate.
Qed.

(** C8, on the code: after a read served by the cache (flag [True]), an
    [INSERT] goes through the bypass: it is served by the store, its only
    call, and the flag still says [True]. *)
Theorem bypass_leaves_flag_stale :
  let m1 := (execute Sim.select_active None Sim.m0).2 in
  let m2 := (execute Sim.select_active None m1).2 in
  let m3 := (execute Sim.insert_bob (Some Sim.bob) m2).2 in
  _last_from_cache (self m1) = Some false /\
  _last_from_cache (self m2) = Some true /\
  (exists result, (execute Sim.insert_bob (Some Sim.bob) m2).1 = Ok (Native result)) /\
  trace m3 = trace m2 ++ [StoreExecute Sim.insert_bob Sim.bob] /\
  _last_from_cache (self m3) = Some true.
Proof.
  intros m1 m2 m3.
  split; [vm_compute; reflexivity|].
  split; [vm_compute; reflexivity|].
  split; [eexists; vm_compute; reflexivity|].
  split; vm_compute; reflexivity.
Qed.

(** The lookup order on a session whose one-second entry has expired. *)
Lemma lookup_order_witness :
  is_select Sim.select_active = true /\
  make_cache_key Sim.select_active (params_or_empty None) (_cache_prefix (self Sim.m_expired))
    = Ok Sim.key_active /\
  ((forall b bs w,
       redis_get Sim.key_active (env Sim.m_expired) = (Ok (Some (b :: bs)), w) ->
       exists m',
         execute Sim.select_active None Sim.m_expired
           = (Portable <$> pickle_loads (b :: bs), m') /\
         m' = {| self := with_flag true (self Sim.m_expired); env := w;
                 trace := trace Sim.m_expired
                            ++ [RedisGet Sim.key_active; Print ReturningFromCache];
                 loop := loop Sim.m_expired |} /\
         _last_from_cache (self m') = Some true /\
         _local_cache (self m') = _local_cache (self Sim.m_expired)) /\
   (forall answer w,
       redis_get Sim.key_active (env Sim.m_expired) = (answer, w) ->
       remote_miss answer ->
       (forall payload expiry t w',
           _local_cache (self Sim.m_expired) !! Sim.key_active = Some (payload, expiry) ->
           time_time w = (t, w') ->
           ((t < expiry)%Q ->
            exists m',
              execute Sim.select_active None Sim.m_expired = (Ok (Portable payload), m') /\
              m' = {| self := with_flag true (self Sim.m_expired); env := w';
                      trace := trace Sim.m_expired
                                 ++ [RedisGet Sim.key_active; Print ReturningFromCacheLocal];
                      loop := loop Sim.m_expired |} /\
              _last_from_cache (self m') = Some true /\
              _local_cache (self m') = _local_cache (self Sim.m_expired) /\
              _local_cache (self m') !! Sim.key_active = Some (payload, expiry)) /\
           (~ (t < expiry)%Q ->
            exists m_evicted,
              execute Sim.select_active None Sim.m_expired =
                hit_database Sim.select_active (params_or_empty None) Sim.key_active
                  m_evicted /\
              m_evicted =
                {| self := with_local
                             (delete Sim.key_active (_local_cache (self Sim.m_expired)))
                             (self Sim.m_expired);
                   env := w'; trace := trace Sim.m_expired ++ [RedisGet Sim.key_active];
                   loop := loop Sim.m_expired |} /\
              _local_cache (self m_evicted) !! Sim.key_active = None /\
              (forall k, k <> Sim.key_active ->
                         _local_cache (self m_evicted) !! k
                           = _local_cache (self Sim.m_expired) !! k) /\
              _last_from_cache (self m_evicted) = _last_from_cache (self Sim.m_expired) /\
              (forall e m',
                  execute Sim.select_active None Sim.m_expired = (Raise e, m') ->
                  _local_cache (self m') !! Sim.key_active = None /\
                  (forall k, k <> Sim.key_active ->
                             _local_cache (self m') !! k
                               = _local_cache (self Sim.m_expired) !! k)))) /\
       (_local_cache (self Sim.m_expired) !! Sim.key_active = None ->
        execute Sim.select_active None Sim.m_expired =
          hit_database Sim.select_active (params_or_empty None) Sim.key_active
            (record (RedisGet Sim.key_active) w Sim.m_expired))) /\
   (forall m2 : Machine Sim.World,
       exists rest,
         trace (hit_database Sim.select_active (params_or_empty None) Sim.key_active m2).2 =
           trace m2 ++ [Print HittingTheDatabase;
                        StoreExecute Sim.select_active (params_or_empty None)] ++ rest)).
Proof.
  split; [reflexivity|]. split; [vm_compute; reflexivity|].
  apply (lookup_order Sim.select_active None Sim.key_active Sim.m_expired).
  - reflexivity.
  - vm_compute; reflexivity.
Defined.

(** The cache write of the first read on a fresh session. *)
Lemma cache_write_after_miss_witness :
  is_select Sim.select_active = true /\
  make_cache_key Sim.select_active (params_or_empty None) (_cache_prefix (self Sim.m0))
    = Ok Sim.key_active /\
  redis_get Sim.key_active (env Sim.m0) = (Ok None, Sim.world0) /\
  remote_miss (Ok None) /\
  local_lookup Sim.key_active (record (RedisGet Sim.key_active) Sim.world0 Sim.m0)
    = (Ok None, record (RedisGet Sim.key_active) Sim.world0 Sim.m0) /\
  super_execute Sim.select_active (params_or_empty None)
      (env (record (RedisGet Sim.key_active) Sim.world0 Sim.m0))
    = (Ok Sim.users_result, Sim.world0) /\
  exists payload m' t,
    materialize Sim.users_result = Ok payload /\
    execute Sim.select_active None Sim.m0 = (Ok (Portable payload), m') /\
    _local_cache (self m') =
      <[Sim.key_active := (payload, t + inject_Z (_ttl (self Sim.m0)))%Q]>
        (_local_cache (self (record (RedisGet Sim.key_active) Sim.world0 Sim.m0))) /\
    _local_cache (self m') !! Sim.key_active
      = Some (payload, t + inject_Z (_ttl (self Sim.m0)))%Q /\
    (forall e, pickle_dumps payload = Raise e ->
       trace m' = trace (record (RedisGet Sim.key_active) Sim.world0 Sim.m0)
                    ++ [Print HittingTheDatabase;
                        StoreExecute Sim.select_active (params_or_empty None)] /\
       time_time Sim.world0 = (t, env m')) /\
    (forall data,
       pickle_dumps payload = Ok data ->
       trace m' = trace (record (RedisGet Sim.key_active) Sim.world0 Sim.m0)
                    ++ [Print HittingTheDatabase;
                        StoreExecute Sim.select_active (params_or_empty None);
                        RedisSet Sim.key_active data (_ttl (self Sim.m0))] /\
       time_time (redis_set Sim.key_active data (_ttl (self Sim.m0)) Sim.world0).2
         = (t, env m')).
Proof.
  split; [reflexivity|]. split; [vm_compute; reflexivity|].
  split; [reflexivity|]. split; [reflexivity|].
  split; [vm_compute; reflexivity|]. split; [reflexivity|].
  apply (cache_write_after_miss Sim.select_active None Sim.key_active Sim.m0
           (Ok None) Sim.world0 (record (RedisGet Sim.key_active) Sim.world0 Sim.m0)
           Sim.users_result Sim.world0).
  - reflexivity.
  - vm_compute; reflexivity.
  - reflexivity.
  - reflexivity.
  - vm_compute; reflexivity.
  - reflexivity.
Defined.

(** A read while the remote cache is unreachable. *)
Lemma remote_failure_is_a_miss_witness :
  is_select Sim.select_active = true /\
  make_cache_key Sim.select_active (params_or_empty None) (_cache_prefix (self Sim.m_down))
    = Ok Sim.key_active /\
  redis_get Sim.key_active (env Sim.m_down)
    = (Raise (PyException "ConnectionError"), Sim.world_down) /\
  (execute Sim.select_active None Sim.m_down =
     after_remote_miss Sim.select_active (params_or_empty None) Sim.key_active
       (record (RedisGet Sim.key_active) Sim.world_down Sim.m_down) /\
   (forall (m0 : Machine Sim.World) w0,
       _cache_prefix (self m0) = _cache_prefix (self Sim.m_down) ->
       redis_get Sim.key_active (env m0) = (Ok None, w0) ->
       execute Sim.select_active None m0 =
         after_remote_miss Sim.select_active (params_or_empty None) Sim.key_active
           (record (RedisGet Sim.key_active) w0 m0)) /\
   ((exists payload m2,
        local_lookup Sim.key_active
            (record (RedisGet Sim.key_active) Sim.world_down Sim.m_down)
          = (Ok (Some payload), m2) /\
        execute Sim.select_active None Sim.m_down = (Ok (Portable payload), m2) /\
        _last_from_cache (self m2) = Some true) \/
    (exists m2 result w3 payload m',
        local_lookup Sim.key_active
            (record (RedisGet Sim.key_active) Sim.world_down Sim.m_down)
          = (Ok None, m2) /\
        super_execute Sim.select_active (params_or_empty None) (env m2) = (Ok result, w3) /\
        materialize result = Ok payload /\
        execute Sim.select_active None Sim.m_down = (Ok (Portable payload), m') /\
        _last_from_cache (self m') = Some false /\
        (exists expiry, _local_cache (self m') !! Sim.key_active = Some (payload, expiry))) \/
    (exists m2 e' w3 m',
        local_lookup Sim.key_active
            (record (RedisGet Sim.key_active) Sim.world_down Sim.m_down)
          = (Ok None, m2) /\
        super_execute Sim.select_active (params_or_empty None) (env m2) = (Raise e', w3) /\
        execute Sim.select_active None Sim.m_down = (Raise e', m') /\
        env m' = w3))) /\
  (execute Sim.select_active None Sim.m_down).1 = Ok (Portable [IRecord Sim.alice]).
Proof.
  split; [reflexivity|]. split; [vm_compute; reflexivity|]. split; [reflexivity|].
  split; [|vm_compute; reflexivity].
  apply (remote_failure_is_a_miss Sim.select_active None Sim.key_active Sim.m_down
           (PyException "ConnectionError") Sim.world_down).
  - reflexivity.
  - vm_compute; reflexivity.
  - reflexivity.
Defined.

(** C5, as stated, fails on the code.  First, a failure does not always
    give an empty payload: when reading the scalars raises, the rows are
    taken from the mappings.  Second, what the caller of [execute]
    receives is the materialized payload, not the store's result: with the
    same one-row answer from the store, the caller gets the row when its
    columns can be read and an empty list when they cannot. *)
Lemma materialization_failure_counterexample :
  (introspection_fails Sim.closed_scalars /\
   materialize Sim.closed_scalars = Ok [IRecord Sim.alice] /\
   materialize Sim.closed_scalars <> Ok []) /\
  (introspection_fails Sim.detached_result /\
   (execute Sim.select_active None Sim.m0).1 = Ok (Portable [IRecord Sim.alice]) /\
   (execute Sim.select_active None Sim.m_detached).1 = Ok (Portable [])).
Proof.
  split.
  - split; [exact I|]. split; [reflexivity | discriminate].
  - split; [split; reflexivity|]. split; vm_compute; reflexivity.
Qed.

(** A miss answered by a row whose columns cannot be read. *)
Lemma materialization_recovers_witness :
  is_select Sim.select_active = true /\
  make_cache_key Sim.select_active (params_or_empty None)
      (_cache_prefix (self Sim.m_detached)) = Ok Sim.key_active /\
  redis_get Sim.key_active (env Sim.m_detached) = (Ok None, Sim.world_detached) /\
  remote_miss (Ok None) /\
  local_lookup Sim.key_active (record (RedisGet Sim.key_active) Sim.world_detached Sim.m_detached)
    = (Ok None, record (RedisGet Sim.key_active) Sim.world_detached Sim.m_detached) /\
  super_execute Sim.select_active (params_or_empty None)
      (env (record (RedisGet Sim.key_active) Sim.world_detached Sim.m_detached))
    = (Ok Sim.detached_result, Sim.world_detached) /\
  exists payload m',
    materialize Sim.detached_result = Ok payload /\
    execute Sim.select_active None Sim.m_detached = (Ok (Portable payload), m') /\
    (exists expiry, _local_cache (self m') !! Sim.key_active = Some (payload, expiry)) /\
    (forall first rest e,
        scalars_all Sim.detached_result = Ok (first :: rest) ->
        has_mapper first = true ->
        serialize_columns (first :: rest) = Raise e ->
        payload = []) /\
    (forall e,
        mappings_all Sim.detached_result = Raise e ->
        scalars_all Sim.detached_result = Ok [] \/
          (exists e', scalars_all Sim.detached_result = Raise e') ->
        payload = []) /\
    (forall e rows,
        scalars_all Sim.detached_result = Raise e ->
        mappings_all Sim.detached_result = Ok rows ->
        payload = map IRecord rows).
Proof.
  split; [reflexivity|]. split; [vm_compute; reflexivity|].
  split; [reflexivity|]. split; [reflexivity|].
  split; [vm_compute; reflexivity|]. split; [reflexivity|].
  apply (materialization_recovers Sim.select_active None Sim.key_active Sim.m_detached
           (Ok None) Sim.world_detached
           (record (RedisGet Sim.key_active) Sim.world_detached Sim.m_detached)
           Sim.detached_result Sim.world_detached).
  - reflexivity.
  - vm_compute; reflexivity.
  - reflexivity.
  - reflexivity.
  - vm_compute; reflexivity.
  - reflexivity.
Defined.

(** On the simulated remote cache, a [get] that follows a successful [set]
    with a positive TTL returns what was set. *)
Lemma sim_remote_gives_back k v ex (w0 w1 : Sim.World) :
  (0 < ex)%Z ->
  redis_set k v ex w0 = (Ok tt, w1) ->
  (redis_get k (time_time w1).2).1 = Ok (Some v).
Proof.
  intros Hpos. simpl. unfold Sim.set, Sim.get, Sim.unreachable.
  destruct (Sim.up w0) eqn:Hup; [|discriminate].
  destruct (ex <=? 0)%Z eqn:Hex; [discriminate|].
  intros [= <-]. simpl. rewrite Hup. simpl. rewrite lookup_insert_eq.
  unfold Sim.live. simpl.
  assert (Qltb (Sim.clock w0) (Sim.clock w0 + inject_Z ex) = true) as ->; [|done].
  apply Qltb_lt. rewrite <- (Qplus_0_r (Sim.clock w0)) at 1.
  apply Qplus_lt_r. unfold Qlt. simpl. lia.
Qed.

(** C3, as stated, fails on the code: with a TTL of zero and the remote
    cache up, the remote tier refuses the write and the local entry is
    expired as soon as it is written, so the second of two reads in a row
    is served by the store as well. *)
Lemma read_through_fails_at_ttl_zero :
  let m1 := (execute Sim.select_active None Sim.m_ttl0).2 in
  let m2 := (execute Sim.select_active None m1).2 in
  Sim.up (env Sim.m_ttl0) = true /\
  (execute Sim.select_active None Sim.m_ttl0).1 = Ok (Portable [IRecord Sim.alice]) /\
  _last_from_cache (self m1) = Some false /\
  (execute Sim.select_active None m1).1 = Ok (Portable [IRecord Sim.alice]) /\
  _last_from_cache (self m2) = Some false /\
  firstn 3 (skipn (length (trace m1)) (trace m2))
    = [RedisGet Sim.key_active; Print HittingTheDatabase;
       StoreExecute Sim.select_active []].
Proof.
  intros m1 m2.
  repeat match goal with |- _ /\ _ => split end; vm_compute; reflexivity.
Qed.

(** Two reads in a row on a fresh session, the remote cache being up. *)
Lemma read_through_idempotence_witness :
  is_select Sim.select_active = true /\
  make_cache_key Sim.select_active (params_or_empty None) (_cache_prefix (self Sim.m0))
    = Ok Sim.key_active /\
  redis_get Sim.key_active (env Sim.m0) = (Ok None, Sim.world0) /\
  remote_miss (Ok None) /\
  _local_cache (self Sim.m0) !! Sim.key_active = None /\
  super_execute Sim.select_active (params_or_empty None) Sim.world0
    = (Ok Sim.users_result, Sim.world0) /\
  materialize Sim.users_result = Ok [IRecord Sim.alice] /\
  (0 < _ttl (self Sim.m0))%Z /\
  pickle_dumps (W := Sim.World) [IRecord Sim.alice]
    = Ok (hd Byte.x00 Sim.alice_bytes :: tl Sim.alice_bytes) /\
  redis_set Sim.key_active (hd Byte.x00 Sim.alice_bytes :: tl Sim.alice_bytes)
      (_ttl (self Sim.m0)) Sim.world0
    = (Ok tt, (redis_set Sim.key_active (hd Byte.x00 Sim.alice_bytes :: tl Sim.alice_bytes)
                 (_ttl (self Sim.m0)) Sim.world0).2) /\
  (forall k v ex (w0 w1 : Sim.World),
      (0 < ex)%Z ->
      redis_set k v ex w0 = (Ok tt, w1) ->
      (redis_get k (time_time w1).2).1 = Ok (Some v)) /\
  pickle_loads (W := Sim.World) (hd Byte.x00 Sim.alice_bytes :: tl Sim.alice_bytes)
    = Ok [IRecord Sim.alice] /\
  exists m1 m2,
    execute Sim.select_active None Sim.m0 = (Ok (Portable [IRecord Sim.alice]), m1) /\
    _last_from_cache (self m1) = Some false /\
    In (StoreExecute Sim.select_active (params_or_empty None)) (trace m1) /\
    execute Sim.select_active None m1 = (Ok (Portable [IRecord Sim.alice]), m2) /\
    _last_from_cache (self m2) = Some true /\
    trace m2 = trace m1 ++ [RedisGet Sim.key_active; Print ReturningFromCache].
Proof.
  split; [reflexivity|]. split; [vm_compute; reflexivity|].
  split; [reflexivity|]. split; [reflexivity|]. split; [reflexivity|].
  split; [reflexivity|]. split; [reflexivity|]. split; [reflexivity|].
  split; [vm_compute; reflexivity|]. split; [vm_compute; reflexivity|].
  split; [exact sim_remote_gives_back|]. split; [vm_compute; reflexivity|].
  apply (read_through_idempotence Sim.select_active None Sim.key_active Sim.m0
           (Ok None) Sim.world0 Sim.users_result Sim.world0 [IRecord Sim.alice]
           (hd Byte.x00 Sim.alice_bytes) (tl Sim.alice_bytes)
           (redis_set Sim.key_active (hd Byte.x00 Sim.alice_bytes :: tl Sim.alice_bytes)
              (_ttl (self Sim.m0)) Sim.world0).2).
  - reflexivity.
  - vm_compute; reflexivity.
  - reflexivity.
  - reflexivity.
  - reflexivity.
  - reflexivity.
  - reflexivity.
  - reflexivity.
  - vm_compute; reflexivity.
  - vm_compute; reflexivity.
  - exact sim_remote_gives_back.
  - vm_compute; reflexivity.
Defined.

(** ** Runs of the scenarios *)

Ltac evaluate :=
  repeat match goal with |- _ /\ _ => split end; vm_compute; reflexivity.

(** With the remote cache down, the first read is served by the store and
    the second by the local tier; neither raises. *)
Example reads_with_remote_down :
  let m1 := (execute Sim.select_active None Sim.m_down).2 in
  let m2 := (execute Sim.select_active None m1).2 in
  (execute Sim.select_active None Sim.m_down).1 = Ok (Portable [IRecord Sim.alice]) /\
  _last_from_cache (self m1) = Some false /\
  (execute Sim.select_active None m1).1 = Ok (Portable [IRecord Sim.alice]) /\
  _last_from_cache (self m2) = Some true /\
  skipn (length (trace m1)) (trace m2)
    = [RedisGet Sim.key_active; Print ReturningFromCacheLocal].
Proof. intros; evaluate. Qed.

(** An entry written with a TTL of one second and read one second later is
    gone from both tiers: the remote tier is asked, the local entry is
    dropped, the store is hit. *)
Example ttl_expiry :
  let m := Sim.m_expired in
  (exists payload, _local_cache (self m) !! Sim.key_active = Some (payload, 1001%Q)) /\
  (Sim.clock (env m) == 1001)%Q /\
  (execute Sim.select_active None m).1 = Ok (Portable [IRecord Sim.alice]) /\
  _last_from_cache (self (execute Sim.select_active None m).2) = Some false /\
  firstn 3 (skipn (length (trace m)) (trace (execute Sim.select_active None m).2))
    = [RedisGet Sim.key_active; Print HittingTheDatabase;
       StoreExecute Sim.select_active []].
Proof.
  intros m. split; [eexists; vm_compute; reflexivity|]. evaluate.
Qed.

(** An [INSERT] seen by the hook queues the invalidation; the next turn
    of the loop empties the namespace on the remote side, and the local
    tier keeps its entry. *)
Example invalidation_run :
  let m1 := (execute Sim.select_active None Sim.m0).2 in
  let m2 := (_after_execute "sqlcache" Sim.insert_bob m1).2 in
  let m3 := (loop_step m2).2 in
  loop m2 = Some [ClearCacheTask "sqlcache"] /\
  trace m2 = trace m1 /\
  loop m3 = Some [] /\
  skipn (length (trace m2)) (trace m3)
    = [RedisKeys "sqlcache:*"; RedisDelete [Sim.key_active]] /\
  Sim.kv (env m3) = ∅ /\
  _local_cache (self m3) = _local_cache (self m1).
Proof. intros; evaluate. Qed.

(* ===================================================================== *)
(** * Further properties of the library *)
(* ===================================================================== *)

(** ** The shape of a cache key *)

Lemma string_app_cons (c : ascii) (s t : string) :
  (String c s ++ t = String c (s ++ t))%string.
Proof. reflexivity. Qed.

Lemma string_app_nil_l (t : string) : ("" ++ t = t)%string.
Proof. reflexivity. Qed.

Lemma string_length_app (s1 s2 : string) :
  String.length (s1 ++ s2) = (String.length s1 + String.length s2)%nat.
Proof.
  induction s1 as [|c s1 IH]; [done|].
  rewrite string_app_cons. simpl. by rewrite IH.
Qed.

Lemma string_app_assoc (s1 s2 s3 : string) :
  ((s1 ++ s2) ++ s3 = s1 ++ (s2 ++ s3))%string.
Proof.
  induction s1 as [|c s1 IH]; [done|].
  rewrite !string_app_cons. by rewrite IH.
Qed.

Lemma list_ascii_of_string_app (s1 s2 : string) :
  list_ascii_of_string (s1 ++ s2) = list_ascii_of_string s1 ++ list_ascii_of_string s2.
Proof.
  induction s1 as [|c s1 IH]; [done|].
  rewrite string_app_cons. simpl. by rewrite IH.
Qed.

Lemma string_prefix_app (p t : string) : String.prefix p (p ++ t) = true.
Proof.
  induction p as [|c p IH]; [by destruct t|].
  rewrite string_app_cons. simpl.
  destruct (ascii_dec c c); [exact IH | done].
Qed.

Lemma string_app_inj_tail (p1 p2 d1 d2 : string) :
  String.length d1 = String.length d2 ->
  (p1 ++ d1 = p2 ++ d2)%string -> p1 = p2 /\ d1 = d2.
Proof.
  revert p2. induction p1 as [|c p1 IH]; intros [|c' p2] Hlen Heq.
  - done.
  - apply (f_equal String.length) in Heq.
    rewrite string_app_nil_l, string_app_cons in Heq. simpl in Heq.
    rewrite string_length_app in Heq. lia.
  - apply (f_equal String.length) in Heq.
    rewrite string_app_nil_l, string_app_cons in Heq. simpl in Heq.
    rewrite string_length_app in Heq. lia.
  - rewrite !string_app_cons in Heq. injection Heq as -> Heq.
    destruct (IH p2 Hlen Heq) as [-> ->]. done.
Qed.

Lemma compress_length (h block : list Z) :
  length h = 8%nat -> length (Sha256.compress h block) = 8%nat.
Proof.
  intros Hh. unfold Sha256.compress.
  rewrite length_map, length_combine, Hh. reflexivity.
Qed.

Lemma blocks_length (n : nat) (ws h : list Z) :
  length h = 8%nat -> length (Sha256.blocks n ws h) = 8%nat.
Proof.
  revert ws h. induction n as [|n IH]; intros ws h Hh; simpl; [done|].
  destruct ws; [done|]. apply IH, compress_length, Hh.
Qed.

Lemma hex_digit_is_hex (n : N) : (n < 16)%N -> is_hex (PyStr.hex_digit n) = true.
Proof.
  intros Hn.
  assert (forallb (fun k => is_hex (PyStr.hex_digit k)) (map N.of_nat (seq 0 16)) = true)
    as Hall by reflexivity.
  rewrite forallb_forall in Hall. apply Hall. simpl. lia.
Qed.

Lemma hex_word_spec (w : Z) :
  String.length (Sha256.hex_word w) = 8%nat /\
  forallb is_hex (list_ascii_of_string (Sha256.hex_word w)) = true.
Proof.
  unfold Sha256.hex_word. rewrite list_ascii_of_string_of_list_ascii.
  split; [reflexivity|].
  apply forallb_forall. intros c Hc. apply in_map_iff in Hc as (i & <- & _).
  apply hex_digit_is_hex.
  change 15 with (Z.ones 4). rewrite Z.land_ones by lia.
  pose proof (Z.mod_pos_bound (Z.shiftr w (4 * Z.of_nat (7 - i))) (2 ^ 4)). lia.
Qed.

Lemma hexdigest_spec (msg : list Z) :
  String.length (Sha256.hexdigest msg) = 64%nat /\
  forallb is_hex (list_ascii_of_string (Sha256.hexdigest msg)) = true.
Proof.
  unfold Sha256.hexdigest.
  assert (length (Sha256.digest msg) = 8%nat) as Hlen.
  { unfold Sha256.digest. by apply blocks_length. }
  assert (forall ws : list Z,
             let s := fold_right (fun w acc => (Sha256.hex_word w ++ acc)%string) EmptyString ws in
             String.length s = (8 * length ws)%nat /\
             forallb is_hex (list_ascii_of_string s) = true) as Hall.
  { induction ws as [|w ws [IHl IHh]]; cbn [fold_right length]; [done|].
    destruct (hex_word_spec w) as [Hl Hh].
    rewrite string_length_app, list_ascii_of_string_app, forallb_app, Hl, Hh, IHl, IHh.
    split; [lia | done]. }
  destruct (Hall (Sha256.digest msg)) as [Hl Hh]. rewrite Hlen in Hl. done.
Qed.

Lemma make_cache_key_inv statement params prefix key :
  make_cache_key statement params prefix = Ok key ->
  exists digest,
    key = (prefix ++ ":" ++ digest)%string /\
    String.length digest = 64%nat /\
    forallb is_hex (list_ascii_of_string digest) = true.
Proof.
  unfold make_cache_key. destruct (str statement) as [sql_text|e]; [|discriminate].
  simpl. intros [= <-].
  destruct (hexdigest_spec (PyStr.encode_utf8 (sql_text ++ "|" ++ repr_dict params)))
    as [Hl Hh].
  eauto.
Qed.

(** X1. Every key is the prefix, a colon and 64 lowercase hexadecimal
    digits; so it starts with [prefix:], the literal part of the pattern
    that [clear_cache] and the invalidation task ask the remote cache for,
    and its length is that of the prefix plus 65. *)
Theorem cache_key_format statement params prefix key :
  make_cache_key statement params prefix = Ok key ->
  exists digest,
    key = (prefix ++ ":" ++ digest)%string /\
    String.length digest = 64%nat /\
    forallb is_hex (list_ascii_of_string digest) = true /\
    String.prefix (prefix ++ ":") key = true /\
    String.length key = (String.length prefix + 65)%nat.
Proof.
  intros (digest & -> & Hl & Hh)%make_cache_key_inv.
  exists digest. split; [done|]. split; [done|]. split; [done|]. split.
  - rewrite <- string_app_assoc. apply string_prefix_app.
  - rewrite !string_length_app, Hl. simpl. lia.
Qed.

(** X2. Keys made under different prefixes are different, whatever the
    statements and the parameters: two sessions configured with distinct
    prefixes never read or write the same entry. *)
Theorem cache_key_prefix_separation s1 d1 p1 k1 s2 d2 p2 k2 :
  make_cache_key s1 d1 p1 = Ok k1 ->
  make_cache_key s2 d2 p2 = Ok k2 ->
  p1 <> p2 ->
  k1 <> k2.
Proof.
  intros (g1 & -> & Hl1 & _)%make_cache_key_inv (g2 & -> & Hl2 & _)%make_cache_key_inv Hne Heq.
  apply Hne.
  assert (String.length (":" ++ g1) = String.length (":" ++ g2)) as Hlen.
  { rewrite !string_length_app. congruence. }
  by destruct (string_app_inj_tail _ _ _ _ Hlen Heq).
Qed.

Section More.
Context {W : Type} `{Backend W}.
Implicit Types (m : Machine W) (key : string) (payload : Payload).

(** ** What a call can raise, log and change *)

(** The events a call appended to the log. *)
Lemma locally_written_trace key payload m :
  trace (locally_written key payload m) = trace (remote_written key payload m).
Proof. unfold locally_written. by destruct (time_time _). Qed.

Lemma locally_written_self key payload m :
  exists t,
    self (locally_written key payload m) =
      with_local (<[key := (payload, t + inject_Z (_ttl (self m)))%Q]> (_local_cache (self m)))
                 (self m).
Proof. unfold locally_written. destruct (time_time _) as [t w]. by exists t. Qed.

Lemma locally_written_loop key payload m :
  loop (locally_written key payload m) = loop m.
Proof.
  unfold locally_written, remote_written.
  destruct (pickle_dumps payload); destruct (time_time _); reflexivity.
Qed.

Lemma remote_written_trace key payload m :
  trace (remote_written key payload m) = trace m \/
  exists data,
    pickle_dumps payload = Ok data /\
    trace (remote_written key payload m) = trace m ++ [RedisSet key data (_ttl (self m))].
Proof.
  unfold remote_written. destruct (pickle_dumps payload) as [data|e]; simpl; eauto.
Qed.

Lemma hit_database_raise statement params key m e m' :
  hit_database statement params key m = (Raise e, m') ->
  super_execute statement params (env m) = (Raise e, env m') /\
  self m' = self m /\
  trace m' = trace m ++ [Print HittingTheDatabase; StoreExecute statement params].
Proof.
  rewrite hit_database_eq.
  destruct (super_execute statement params (env m)) as [[result|e0] w].
  - destruct (materialize_total result) as [payload ->]. discriminate.
  - intros [= <- <-]. simpl. by rewrite <- app_assoc.
Qed.

Lemma after_remote_miss_raise statement params key m e m' :
  after_remote_miss statement params key m = (Raise e, m') ->
  exists w0 w1, super_execute statement params w0 = (Raise e, w1).
Proof.
  rewrite after_remote_miss_eq, local_lookup_eq.
  destruct (_local_cache (self m) !! key) as [[cached expiry]|].
  - destruct (time_time (env m)) as [t w']. destruct (Qltb t expiry); [discriminate|].
    intros [Hs _]%hit_database_raise. eauto.
  - intros [Hs _]%hit_database_raise. eauto.
Qed.

Lemma local_lookup_miss key m m2 :
  local_lookup key m = (Ok None, m2) ->
  _local_cache (self m2) !! key = None /\
  _last_from_cache (self m2) = _last_from_cache (self m) /\
  _cache_prefix (self m2) = _cache_prefix (self m) /\
  _ttl (self m2) = _ttl (self m) /\
  trace m2 = trace m /\ loop m2 = loop m /\
  (forall k, k <> key -> _local_cache (self m2) !! k = _local_cache (self m) !! k).
Proof.
  rewrite local_lookup_eq.
  destruct (_local_cache (self m) !! key) as [[cached expiry]|] eqn:Hentry.
  - destruct (time_time (env m)) as [t w]. destruct (Qltb t expiry); [discriminate|].
    intros [= <-]. simpl. rewrite lookup_delete_eq.
    repeat split; try done. intros k Hk. by rewrite lookup_delete_ne.
  - intros [= <-]. done.
Qed.

(** X4. A store failure on a miss.  When both tiers miss and the store
    raises, [execute] raises the same exception; the last thing it did is
    the store call (no remote write is attempted), the flag is what it was
    before the call, and the local tier has no entry under the key (an
    expired one was dropped, none is written). *)
Theorem store_failure_on_miss statement params key m answer w m2 e w3 :
  is_select statement = true ->
  make_cache_key statement (params_or_empty params) (_cache_prefix (self m)) = Ok key ->
  redis_get key (env m) = (answer, w) ->
  remote_miss answer ->
  local_lookup key (record (RedisGet key) w m) = (Ok None, m2) ->
  super_execute statement (params_or_empty params) (env m2) = (Raise e, w3) ->
  execute statement params m =
    (Raise e,
     {| self := self m2; env := w3;
        trace := trace m ++ [RedisGet key; Print HittingTheDatabase;
                             StoreExecute statement (params_or_empty params)];
        loop := loop m |}) /\
  _last_from_cache (self m2) = _last_from_cache (self m) /\
  _local_cache (self m2) !! key = None.
Proof.
  intros Hsel Hkey Hget Hmiss Hlocal Hstore.
  destruct (local_lookup_miss _ _ _ Hlocal) as (Hnone & Hflag & _ & _ & Htrace & Hloop & _).
  simpl in *. split; [|done].
  rewrite (execute_read_eq _ _ key) by done.
  unfold remote_answer, remote_asked. rewrite Hget. simpl.
  unfold remote_miss in Hmiss. rewrite Hmiss.
  rewrite after_remote_miss_eq, Hlocal, hit_database_eq, Hstore.
  unfold store_answered, record. simpl. rewrite Htrace, Hloop, <- !app_assoc. done.
Qed.

(** The four ways a read with a key can go. *)
Lemma execute_read_cases statement params key m :
  is_select statement = true ->
  make_cache_key statement (params_or_empty params) (_cache_prefix (self m)) = Ok key ->
  let p := params_or_empty params in
  let ttl := _ttl (self m) in
  (exists b bs w,
      redis_get key (env m) = (Ok (Some (b :: bs)), w) /\
      execute statement params m =
        (Portable <$> pickle_loads (b :: bs),
         {| self := with_flag true (self m); env := w;
            trace := trace m ++ [RedisGet key; Print ReturningFromCache];
            loop := loop m |})) \/
  (exists payload expiry w,
      _local_cache (self m) !! key = Some (payload, expiry) /\
      execute statement params m =
        (Ok (Portable payload),
         {| self := with_flag true (self m); env := w;
            trace := trace m ++ [RedisGet key; Print ReturningFromCacheLocal];
            loop := loop m |})) \/
  (exists e s2 w,
      _local_cache s2 !! key = None /\
      (forall k, k <> key -> _local_cache s2 !! k = _local_cache (self m) !! k) /\
      _cache_prefix s2 = _cache_prefix (self m) /\ _ttl s2 = ttl /\
      _last_from_cache s2 = _last_from_cache (self m) /\
      execute statement params m =
        (Raise e,
         {| self := s2; env := w;
            trace := trace m ++ [RedisGet key; Print HittingTheDatabase; StoreExecute statement p];
            loop := loop m |})) \/
  (exists payload s2 t w sent,
      (forall k, k <> key -> _local_cache s2 !! k = _local_cache (self m) !! k) /\
      _cache_prefix s2 = _cache_prefix (self m) /\ _ttl s2 = ttl /\
      (sent = [] \/ exists data, sent = [RedisSet key data ttl]) /\
      execute statement params m =
        (Ok (Portable payload),
         {| self := with_local (<[key := (payload, t + inject_Z ttl)%Q]> (_local_cache s2))
                               (with_flag false s2);
            env := w;
            trace := trace m ++ [RedisGet key; Print HittingTheDatabase; StoreExecute statement p]
                             ++ sent;
            loop := loop m |})).
Proof.
  intros Hsel Hkey p ttl. subst p ttl.
  rewrite (execute_read_eq _ _ key) by done.
  unfold remote_answer, remote_asked.
  destruct (redis_get key (env m)) as [answer w] eqn:Hget. simpl.
  destruct (truthy (match answer with Ok cached => cached | Raise _ => None end)) eqn:Htruthy.
  { left. destruct answer as [[[|b bs]|]|e]; try discriminate.
    exists b, bs, w. split; [done|]. rewrite serve_remote_eq. simpl.
    unfold with_self, record. simpl. by rewrite <- app_assoc. }
  right. rewrite after_remote_miss_eq.
  destruct (local_lookup key (record (RedisGet key) w m)) as [[[cached|]|e] m2] eqn:Hlocal.
  - left. rewrite local_lookup_eq in Hlocal. simpl in Hlocal.
    destruct (_local_cache (self m) !! key) as [[payload expiry]|] eqn:Hentry; [|discriminate].
    destruct (time_time w) as [t w']. destruct (Qltb t expiry); [|discriminate].
    injection Hlocal as <- <-. exists payload, expiry, w'. split; [done|].
    unfold served_locally, with_self, record. simpl. by rewrite <- app_assoc.
  - right. destruct (local_lookup_miss _ _ _ Hlocal)
      as (Hnone & Hflag & Hprefix & Httl & Htrace & Hloop & Hframe). simpl in *.
    rewrite hit_database_eq.
    destruct (super_execute statement (params_or_empty params) (env m2))
      as [[result|e] w3] eqn:Hstore.
    + right. destruct (materialize_total result) as [payload ->]. simpl.
      unfold locally_written, remote_written. simpl. rewrite Httl.
      destruct (pickle_dumps payload) as [data|e]; simpl.
      * destruct (time_time _) as [t w4]. simpl.
        exists payload, (self m2), t, w4, [RedisSet key data (_ttl (self m))].
        split; [done|]. split; [done|]. split; [done|]. split; [eauto|].
        unfold with_self, with_env. simpl. by rewrite Htrace, Hloop, <- !app_assoc.
      * destruct (time_time _) as [t w4]. simpl.
        exists payload, (self m2), t, w4, [].
        split; [done|]. split; [done|]. split; [done|]. split; [eauto|].
        unfold with_self, with_env. simpl. by rewrite Htrace, Hloop, <- !app_assoc.
    + left. exists e, (self m2), w3. repeat (split; [done|]).
      unfold store_answered, record. simpl. by rewrite Htrace, Hloop, <- !app_assoc.
  - rewrite local_lookup_eq in Hlocal. simpl in Hlocal.
    destruct (_local_cache (self m) !! key) as [[payload expiry]|]; [|discriminate].
    destruct (time_time w) as [t w']. destruct (Qltb t expiry); discriminate.
Qed.

(** X5. The calls of one [execute].  Whatever the statement and the
    world, one call adds to the log one of six sequences: nothing (the key
    of a read could not be built); the store call alone (bypass); the
    remote [get] and a cache message (remote or local hit); the remote
    [get], the store call, and possibly the remote [set] with the
    session's TTL (miss).  So a call asks the store at most once, the
    remote cache at most twice, and never lists or deletes remote keys. *)
Theorem execute_call_shapes statement params m :
  exists new,
    trace (execute statement params m).2 = trace m ++ new /\
    call_shape statement (params_or_empty params) (_ttl (self m)) new.
Proof.
  destruct (is_select statement) eqn:Hsel.
  - destruct (make_cache_key statement (params_or_empty params) (_cache_prefix (self m)))
      as [key|e] eqn:Hkey.
    + destruct (execute_read_cases statement params key m Hsel Hkey)
        as [(b & bs & w & _ & ->) | [(payload & expiry & w & _ & ->) |
           [(e & s2 & w & _ & _ & _ & _ & _ & ->) |
            (payload & s2 & t & w & sent & _ & _ & _ & Hsent & ->)]]]; simpl.
      * eexists. split; [reflexivity|]. constructor.
      * eexists. split; [reflexivity|]. constructor.
      * eexists. split; [reflexivity|]. constructor.
      * eexists. split; [reflexivity|].
        destruct Hsent as [-> | [data ->]]; simpl; constructor.
    + exists []. rewrite app_nil_r. split; [|constructor].
      unfold execute. rewrite Hsel. simpl.
      unfold mbind, M_bind, get_self, lift. by rewrite Hkey.
  - rewrite execute_bypass_eq by done. simpl.
    eexists. split; [reflexivity|]. constructor.
Qed.

(** X6. The flag after a read that returns.  When a read-classified
    statement returns, it returns a payload, and the flag is [True]
    exactly when the call did not reach the store: either the flag is
    [True] and no store call was logged during the call, or it is [False]
    and the store call of this statement was. *)
Theorem flag_tells_origin_of_reads statement params m r m' :
  is_select statement = true ->
  execute statement params m = (Ok r, m') ->
  exists payload new,
    r = Portable payload /\
    trace m' = trace m ++ new /\
    ((_last_from_cache (self m') = Some true /\
      forall s p, ~ In (StoreExecute s p) new) \/
     (_last_from_cache (self m') = Some false /\
      In (StoreExecute statement (params_or_empty params)) new)).
Proof.
  intros Hsel Hexec.
  destruct (make_cache_key statement (params_or_empty params) (_cache_prefix (self m)))
    as [key|e] eqn:Hkey.
  - destruct (execute_read_cases statement params key m Hsel Hkey)
      as [(b & bs & w & _ & Heq) | [(payload & expiry & w & _ & Heq) |
         [(e & s2 & w & _ & _ & _ & _ & _ & Heq) |
          (payload & s2 & t & w & sent & _ & _ & _ & Hsent & Heq)]]];
      rewrite Heq in Hexec.
    + destruct (pickle_loads (b :: bs)) as [payload|e]; [|discriminate].
      injection Hexec as <- <-. eexists payload, _. split; [done|].
      split; [reflexivity|]. left. split; [done|].
      intros s p [?|[?|[]]]; discriminate.
    + injection Hexec as <- <-. eexists payload, _. split; [done|].
      split; [reflexivity|]. left. split; [done|].
      intros s p [?|[?|[]]]; discriminate.
    + discriminate.
    + injection Hexec as <- <-. eexists payload, _. split; [done|].
      split; [reflexivity|]. right. split; [done|]. simpl. tauto.
  - unfold execute in Hexec. rewrite Hsel in Hexec. simpl in Hexec.
    unfold mbind, M_bind, get_self, lift in Hexec. rewrite Hkey in Hexec. discriminate.
Qed.

(** X7. What a call leaves alone in the session.  [execute] never changes
    the prefix or the TTL of the session, and in the local tier it can
    only change the entry under the key of the statement it was given:
    every other entry is as before. *)
Theorem execute_frame statement params m :
  _cache_prefix (self (execute statement params m).2) = _cache_prefix (self m) /\
  _ttl (self (execute statement params m).2) = _ttl (self m) /\
  forall k,
    make_cache_key statement (params_or_empty params) (_cache_prefix (self m)) <> Ok k ->
    _local_cache (self (execute statement params m).2) !! k = _local_cache (self m) !! k.
Proof.
  destruct (is_select statement) eqn:Hsel.
  - destruct (make_cache_key statement (params_or_empty params) (_cache_prefix (self m)))
      as [key|e] eqn:Hkey.
    + destruct (execute_read_cases statement params key m Hsel Hkey)
        as [(b & bs & w & _ & ->) | [(payload & expiry & w & _ & ->) |
           [(e & s2 & w & _ & Hframe & Hp & Ht & _ & ->) |
            (payload & s2 & t & w & sent & Hframe & Hp & Ht & _ & ->)]]]; simpl;
        repeat (split; [done|]); intros k Hk; try done.
      * apply Hframe. congruence.
      * rewrite lookup_insert_ne by congruence. apply Hframe. congruence.
    + unfold execute. rewrite Hsel. simpl.
      unfold mbind, M_bind, get_self, lift. by rewrite Hkey.
  - by rewrite execute_bypass_eq.
Qed.

(** ** TTL, clearing and classification *)

(** X8. A TTL that is not positive.  With [default_ttl <= 0], the entry the
    local tier receives on a miss is expired when it is written: at any
    later call whose clock reading is not earlier than the reading of the
    write and whose remote lookup misses, the entry is dropped and the
    store is hit again. *)
Theorem nonpositive_ttl_never_serves_locally
    statement params key m answer w m2 result w3 :
  is_select statement = true ->
  make_cache_key statement (params_or_empty params) (_cache_prefix (self m)) = Ok key ->
  redis_get key (env m) = (answer, w) ->
  remote_miss answer ->
  local_lookup key (record (RedisGet key) w m) = (Ok None, m2) ->
  super_execute statement (params_or_empty params) (env m2) = (Ok result, w3) ->
  (_ttl (self m) <= 0)%Z ->
  exists payload m1 t w4,
    execute statement params m = (Ok (Portable payload), m1) /\
    time_time w4 = (t, env m1) /\
    forall (m' : Machine W) answer' w' t' w'',
      self m' = self m1 ->
      redis_get key (env m') = (answer', w') ->
      remote_miss answer' ->
      time_time w' = (t', w'') ->
      (t <= t')%Q ->
      execute statement params m' =
        hit_database statement (params_or_empty params) key
          {| self := with_local (delete key (_local_cache (self m'))) (self m');
             env := w''; trace := trace m' ++ [RedisGet key]; loop := loop m' |}.
Proof.
  intros Hsel Hkey Hget Hmiss Hlocal Hstore Hnonpos.
  destruct (local_lookup_miss _ _ _ Hlocal) as (_ & _ & Hprefix & Httl & _). simpl in *.
  destruct (materialize_total result) as [payload Hmat].
  assert (execute statement params m =
            (Ok (Portable payload),
             locally_written key payload
               (with_self (with_flag false (self m2))
                  (store_answered statement (params_or_empty params) w3 m2))))
    as Hexec.
  { rewrite (execute_read_eq _ _ key) by done.
    unfold remote_answer, remote_asked. rewrite Hget. simpl.
    unfold remote_miss in Hmiss. rewrite Hmiss.
    rewrite after_remote_miss_eq, Hlocal, hit_database_eq.
    rewrite Hstore. simpl. by rewrite Hmat. }
  unfold locally_written in Hexec. simpl in Hexec. rewrite Httl in Hexec.
  destruct (time_time (env (remote_written key payload _))) as [t w4] eqn:Htime.
  eexists payload, _, t, _. split; [exact Hexec|]. split; [exact Htime|].
  intros m' answer' w' t' w'' Hself Hget' Hmiss' Htime' Hle. simpl in Hself.
  rewrite (execute_read_eq _ _ key) by (rewrite ?Hself; simpl; by rewrite ?Hprefix).
  unfold remote_answer, remote_asked. rewrite Hget'. simpl.
  unfold remote_miss in Hmiss'. rewrite Hmiss'.
  rewrite after_remote_miss_eq, local_lookup_eq. simpl.
  rewrite Hself. simpl. rewrite lookup_insert_eq, Htime'.
  assert (Qltb t' (t + inject_Z (_ttl (self m))) = false) as ->.
  { apply Qltb_nlt. intros Hlt.
    assert (inject_Z (_ttl (self m)) <= 0)%Q as Hq.
    { rewrite <- (Qle_bool_iff). unfold Qle_bool. simpl.
      apply Z.leb_le. lia. }
    apply (Qlt_irrefl t').
    eapply Qlt_le_trans; [exact Hlt|].
    eapply Qle_trans; [|exact Hle].
    rewrite <- (Qplus_0_r t) at 2. by apply Qplus_le_r. }
  unfold evicted, with_self, with_env, record. simpl. by rewrite Hself.
Qed.

Lemma delete_namespace_self prefix m : self (delete_namespace prefix m).2 = self m.
Proof.
  unfold delete_namespace, call, mbind, M_bind, mret, M_ret.
  destruct (redis_keys _ (env m)) as [[[|k ks]|e] w]; simpl; try done.
  destruct (redis_delete (k :: ks) w) as [[n|e] w']; done.
Qed.

Lemma loop_step_self m : self (loop_step m).2 = self m.
Proof.
  unfold loop_step. destruct (loop m) as [[|[prefix] rest]|]; try done.
  unfold run_task, _clear_cache, suppress, try_except.
  match goal with |- context [delete_namespace prefix ?m0] =>
    pose proof (delete_namespace_self prefix m0) as Hs;
    destruct (delete_namespace prefix m0) as [[[]|e] m1]
  end; exact Hs.
Qed.

(** X9. Clearing does not reach the local tier.  After [clear_cache], or
    after the event loop has run a queued invalidation, an entry of the
    local tier that has not expired is still served: a read whose remote
    lookup now misses returns the old payload, marks the call as
    cache-served and does not ask the store. *)
Theorem local_tier_survives_clearing
    statement params key m m1 payload expiry answer w t w' :
  is_select statement = true ->
  make_cache_key statement (params_or_empty params) (_cache_prefix (self m)) = Ok key ->
  _local_cache (self m) !! key = Some (payload, expiry) ->
  m1 = (clear_cache m).2 \/ m1 = (loop_step m).2 ->
  redis_get key (env m1) = (answer, w) ->
  remote_miss answer ->
  time_time w = (t, w') ->
  (t < expiry)%Q ->
  execute statement params m1 =
    (Ok (Portable payload),
     {| self := with_flag true (self m); env := w';
        trace := trace m1 ++ [RedisGet key; Print ReturningFromCacheLocal];
        loop := loop m1 |}).
Proof.
  intros Hsel Hkey Hentry Hm1 Hget Hmiss Htime Hlt.
  assert (self m1 = self m) as Hself.
  { destruct Hm1 as [-> | ->]; [apply delete_namespace_self | apply loop_step_self]. }
  rewrite (execute_read_eq _ _ key) by (by rewrite ?Hself).
  unfold remote_answer, remote_asked. rewrite Hget. simpl.
  unfold remote_miss in Hmiss. rewrite Hmiss.
  rewrite after_remote_miss_eq, local_lookup_eq. simpl.
  rewrite Hself, Hentry, Htime. apply Qltb_lt in Hlt. rewrite Hlt.
  unfold served_locally, with_self, record. simpl. by rewrite Hself, <- app_assoc.
Qed.

Lemma select_text_is_not_write (txt : string) :
  PyStr.startswith txt "select" = true -> is_write_text txt = false.
Proof.
  unfold PyStr.startswith, is_write_text, PyStr.startswith_any, PyStr.startswith.
  destruct txt as [|c txt]; [done|].
  change (String.prefix "select" (String c txt))
    with (if ascii_dec "s" c then String.prefix "elect" txt else false).
  destruct (ascii_dec "s" c) as [<-|]; [|done]. intros _. reflexivity.
Qed.

(** X10. Reads and writes do not overlap.  A statement that is not a
    [Select] instance and whose text starts (case and surrounding white
    space apart) with [insert], [update] or [delete] is never cached: it
    goes through the bypass.  A statement whose text starts with [select]
    never triggers the invalidation: the hook returns without queuing
    anything. *)
Theorem writes_bypass_reads_do_not_invalidate statement s :
  str statement = Ok s ->
  (isinstance_Select statement = false ->
   is_write_text (PyStr.lower (PyStr.strip s)) = true ->
   forall params m,
     execute statement params m =
       (Native <$> (super_execute statement (params_or_empty params) (env m)).1,
        record (StoreExecute statement (params_or_empty params))
               (super_execute statement (params_or_empty params) (env m)).2 m)) /\
  (PyStr.startswith (PyStr.lower (PyStr.strip s)) "select" = true ->
   forall cache_prefix m,
     _after_execute cache_prefix statement m = (Ok tt, m)).
Proof.
  intros Hstr. split.
  - intros Hinst Hwrite params m. apply execute_bypass_eq.
    unfold is_select. rewrite Hinst, Hstr.
    destruct (PyStr.startswith _ "select") eqn:Hs; [|done].
    apply select_text_is_not_write in Hs. congruence.
  - intros Hs cache_prefix m. apply select_text_is_not_write in Hs.
    unfold _after_execute, suppress, try_except, lift, mbind, M_bind, mret, M_ret.
    rewrite Hstr. simpl. by rewrite Hs.
Qed.

End More.

(** ** The shape of a payload *)

Lemma serialize_columns_ok (objs : list PyObj) (ds : list PyDict) :
  Forall2 (fun o d => column_dict o = Ok d) objs ds ->
  serialize_columns objs = Ok (map IRecord ds).
Proof.
  induction 1 as [|o d objs ds Ho _ IH]; [done|].
  cbn [serialize_columns map]. rewrite Ho, IH. reflexivity.
Qed.

Lemma serialize_columns_fails (objs : list PyObj) :
  Exists (fun o => is_Ok (column_dict o) = false) objs ->
  is_Ok (serialize_columns objs) = false.
Proof.
  induction 1 as [o objs Ho | o objs _ IH]; cbn [serialize_columns].
  - destruct (column_dict o); [discriminate | done].
  - destruct (column_dict o); [|done]. simpl.
    destruct (serialize_columns objs); [discriminate | done].
Qed.

(** X11. What a payload is made of.  When the store's scalars are a
    non-empty list, the first element decides, and the mappings are never
    consulted: if it is a mapped object, the payload has one record per
    object, in order, provided the columns of every element can be read,
    and is empty as soon as one element cannot be read (a primitive among
    mapped objects included); if it is a primitive, the payload is the
    list of the elements as they are.  When there are no scalars, or
    reading them raises, the payload is the list of mapping rows, or empty
    when they raise. *)
Theorem materialize_by_scalars (result : RawResult) :
  match scalars_all result with
  | Ok (first :: rest) =>
      if has_mapper first then
        (forall ds,
            Forall2 (fun o d => column_dict o = Ok d) (first :: rest) ds ->
            materialize result = Ok (map IRecord ds)) /\
        (Exists (fun o => is_Ok (column_dict o) = false) (first :: rest) ->
         materialize result = Ok [])
      else materialize result = Ok (map IObject (first :: rest))
  | _ =>
      match mappings_all result with
      | Ok rows => materialize result = Ok (map IRecord rows)
      | Raise _ => materialize result = Ok []
      end
  end.
Proof.
  unfold materialize, materialize_body, mappings_payload.
  destruct (scalars_all result) as [[|first rest]|e]; cbn -[serialize_columns].
  - by destruct (mappings_all result).
  - destruct (has_mapper first); [|done]. split.
    + intros ds Hds. by rewrite (serialize_columns_ok _ _ Hds).
    + intros Hex. apply serialize_columns_fails in Hex.
      by destruct (serialize_columns (first :: rest)).
  - by destruct (mappings_all result).
Qed.

(* ===================================================================== *)
(** * The further properties on the simulated backend *)
(* ===================================================================== *)

(** The key of the users query. *)
Lemma cache_key_format_witness :
  make_cache_key Sim.select_active [] "sqlcache" = Ok Sim.key_active /\
  exists digest,
    Sim.key_active = ("sqlcache" ++ ":" ++ digest)%string /\
    String.length digest = 64%nat /\
    forallb is_hex (list_ascii_of_string digest) = true /\
    String.prefix ("sqlcache" ++ ":") Sim.key_active = true /\
    String.length Sim.key_active = (String.length "sqlcache" + 65)%nat.
Proof.
  split; [vm_compute; reflexivity|].
  apply (cache_key_format Sim.select_active [] "sqlcache" Sim.key_active).
  vm_compute; reflexivity.
Defined.

(** The same query under two prefixes. *)
Lemma cache_key_prefix_separation_witness :
  make_cache_key Sim.select_active [] "sqlcache" = Ok Sim.key_active /\
  make_cache_key Sim.select_active [] "other"
    = Ok "other:5c0a64c1de40d7d23ad409cb1af80bfc01cb70ef5c8e4befb4a3281ab2267057"%string /\
  "sqlcache"%string <> "other"%string /\
  Sim.key_active
    <> "other:5c0a64c1de40d7d23ad409cb1af80bfc01cb70ef5c8e4befb4a3281ab2267057"%string.
Proof.
  split; [vm_compute; reflexivity|]. split; [vm_compute; reflexivity|].
  split; [discriminate|].
  apply (cache_key_prefix_separation Sim.select_active [] "sqlcache" Sim.key_active
           Sim.select_active [] "other"
           "other:5c0a64c1de40d7d23ad409cb1af80bfc01cb70ef5c8e4befb4a3281ab2267057").
  - vm_compute; reflexivity.
  - vm_compute; reflexivity.
  - discriminate.
Defined.

Lemma store_failure_on_miss_witness :
  is_select Sim.select_active = true /\
  make_cache_key Sim.select_active (params_or_empty None)
      (_cache_prefix (self Sim.m_failing)) = Ok Sim.key_active /\
  redis_get Sim.key_active (env Sim.m_failing) = (Ok None, Sim.world_failing) /\
  remote_miss (Ok None) /\
  local_lookup Sim.key_active (record (RedisGet Sim.key_active) Sim.world_failing Sim.m_failing)
    = (Ok None, record (RedisGet Sim.key_active) Sim.world_failing Sim.m_failing) /\
  super_execute Sim.select_active (params_or_empty None)
      (env (record (RedisGet Sim.key_active) Sim.world_failing Sim.m_failing))
    = (Raise (PyException "OperationalError"), Sim.world_failing) /\
  (execute Sim.select_active None Sim.m_failing =
     (Raise (PyException "OperationalError"),
      {| self := self (record (RedisGet Sim.key_active) Sim.world_failing Sim.m_failing);
         env := Sim.world_failing;
         trace := trace Sim.m_failing
                    ++ [RedisGet Sim.key_active; Print HittingTheDatabase;
                        StoreExecute Sim.select_active (params_or_empty None)];
         loop := loop Sim.m_failing |}) /\
   _last_from_cache (self (record (RedisGet Sim.key_active) Sim.world_failing Sim.m_failing))
     = _last_from_cache (self Sim.m_failing) /\
   _local_cache (self (record (RedisGet Sim.key_active) Sim.world_failing Sim.m_failing))
     !! Sim.key_active = None).
Proof.
  split; [reflexivity|]. split; [vm_compute; reflexivity|].
  split; [reflexivity|]. split; [reflexivity|].
  split; [vm_compute; reflexivity|]. split; [reflexivity|].
  apply (store_failure_on_miss Sim.select_active None Sim.key_active Sim.m_failing
           (Ok None) Sim.world_failing
           (record (RedisGet Sim.key_active) Sim.world_failing Sim.m_failing)
           (PyException "OperationalError") Sim.world_failing).
  - reflexivity.
  - vm_compute; reflexivity.
  - reflexivity.
  - reflexivity.
  - vm_compute; reflexivity.
  - reflexivity.
Defined.

(** The first read of a fresh session. *)
Lemma flag_tells_origin_of_reads_witness :
  is_select Sim.select_active = true /\
  execute Sim.select_active None Sim.m0 = (Ok (Portable [IRecord Sim.alice]), Sim.m_read) /\
  exists payload new,
    Portable [IRecord Sim.alice] = Portable payload /\
    trace Sim.m_read = trace Sim.m0 ++ new /\
    ((_last_from_cache (self Sim.m_read) = Some true /\
      forall s p, ~ In (StoreExecute s p) new) \/
     (_last_from_cache (self Sim.m_read) = Some false /\
      In (StoreExecute Sim.select_active (params_or_empty None)) new)).
Proof.
  split; [reflexivity|]. split; [vm_compute; reflexivity|].
  apply (flag_tells_origin_of_reads Sim.select_active None Sim.m0
           (Portable [IRecord Sim.alice]) Sim.m_read).
  - reflexivity.
  - vm_compute; reflexivity.
Defined.

(** A session whose TTL is zero. *)
Lemma nonpositive_ttl_never_serves_locally_witness :
  is_select Sim.select_active = true /\
  make_cache_key Sim.select_active (params_or_empty None)
      (_cache_prefix (self Sim.m_ttl0)) = Ok Sim.key_active /\
  redis_get Sim.key_active (env Sim.m_ttl0) = (Ok None, Sim.world0) /\
  remote_miss (Ok None) /\
  local_lookup Sim.key_active (record (RedisGet Sim.key_active) Sim.world0 Sim.m_ttl0)
    = (Ok None, record (RedisGet Sim.key_active) Sim.world0 Sim.m_ttl0) /\
  super_execute Sim.select_active (params_or_empty None)
      (env (record (RedisGet Sim.key_active) Sim.world0 Sim.m_ttl0))
    = (Ok Sim.users_result, Sim.world0) /\
  (_ttl (self Sim.m_ttl0) <= 0)%Z /\
  exists payload m1 t w4,
    execute Sim.select_active None Sim.m_ttl0 = (Ok (Portable payload), m1) /\
    time_time w4 = (t, env m1) /\
    forall (m' : Machine Sim.World) answer' w' t' w'',
      self m' = self m1 ->
      redis_get Sim.key_active (env m') = (answer', w') ->
      remote_miss answer' ->
      time_time w' = (t', w'') ->
      (t <= t')%Q ->
      execute Sim.select_active None m' =
        hit_database Sim.select_active (params_or_empty None) Sim.key_active
          {| self := with_local (delete Sim.key_active (_local_cache (self m'))) (self m');
             env := w''; trace := trace m' ++ [RedisGet Sim.key_active]; loop := loop m' |}.
Proof.
  split; [reflexivity|]. split; [vm_compute; reflexivity|].
  split; [reflexivity|]. split; [reflexivity|].
  split; [vm_compute; reflexivity|]. split; [reflexivity|]. split; [reflexivity|].
  apply (nonpositive_ttl_never_serves_locally Sim.select_active None Sim.key_active
           Sim.m_ttl0 (Ok None) Sim.world0
           (record (RedisGet Sim.key_active) Sim.world0 Sim.m_ttl0)
           Sim.users_result Sim.world0).
  - reflexivity.
  - vm_compute; reflexivity.
  - reflexivity.
  - reflexivity.
  - vm_compute; reflexivity.
  - reflexivity.
  - reflexivity.
Defined.

(** A read after [clear_cache], within the TTL of the local entry. *)
Lemma local_tier_survives_clearing_witness :
  is_select Sim.select_active = true /\
  make_cache_key Sim.select_active (params_or_empty None)
      (_cache_prefix (self Sim.m_read)) = Ok Sim.key_active /\
  _local_cache (self Sim.m_read) !! Sim.key_active = Some ([IRecord Sim.alice], 1060%Q) /\
  ((clear_cache Sim.m_read).2 = (clear_cache Sim.m_read).2 \/
   (clear_cache Sim.m_read).2 = (loop_step Sim.m_read).2) /\
  redis_get Sim.key_active (env (clear_cache Sim.m_read).2)
    = (Ok None, env (clear_cache Sim.m_read).2) /\
  remote_miss (Ok None) /\
  time_time (env (clear_cache Sim.m_read).2) = (1000%Q, env (clear_cache Sim.m_read).2) /\
  (1000 < 1060)%Q /\
  execute Sim.select_active None (clear_cache Sim.m_read).2 =
    (Ok (Portable [IRecord Sim.alice]),
     {| self := with_flag true (self Sim.m_read);
        env := env (clear_cache Sim.m_read).2;
        trace := trace (clear_cache Sim.m_read).2
                   ++ [RedisGet Sim.key_active; Print ReturningFromCacheLocal];
        loop := loop (clear_cache Sim.m_read).2 |}).
Proof.
  split; [reflexivity|]. split; [vm_compute; reflexivity|].
  split; [vm_compute; reflexivity|]. split; [left; reflexivity|].
  split; [vm_compute; reflexivity|]. split; [reflexivity|].
  split; [vm_compute; reflexivity|]. split; [reflexivity|].
  apply (local_tier_survives_clearing Sim.select_active None Sim.key_active
           Sim.m_read (clear_cache Sim.m_read).2 [IRecord Sim.alice] 1060%Q
           (Ok None) (env (clear_cache Sim.m_read).2) 1000%Q
           (env (clear_cache Sim.m_read).2)).
  - reflexivity.
  - vm_compute; reflexivity.
  - vm_compute; reflexivity.
  - left; reflexivity.
  - vm_compute; reflexivity.
  - reflexivity.
  - vm_compute; reflexivity.
  - reflexivity.
Defined.

(** The [INSERT] of the users table. *)
Lemma writes_bypass_reads_do_not_invalidate_witness :
  str Sim.insert_bob
    = Ok "INSERT INTO users (username, is_active) VALUES (:username, :is_active)"%string /\
  ((isinstance_Select Sim.insert_bob = false ->
    is_write_text (PyStr.lower (PyStr.strip
      "INSERT INTO users (username, is_active) VALUES (:username, :is_active)")) = true ->
    forall params (m : Machine Sim.World),
      execute Sim.insert_bob params m =
        (Native <$> (super_execute Sim.insert_bob (params_or_empty params) (env m)).1,
         record (StoreExecute Sim.insert_bob (params_or_empty params))
                (super_execute Sim.insert_bob (params_or_empty params) (env m)).2 m)) /\
   (PyStr.startswith (PyStr.lower (PyStr.strip
      "INSERT INTO users (username, is_active) VALUES (:username, :is_active)")) "select"
      = true ->
    forall cache_prefix (m : Machine Sim.World),
      _after_execute cache_prefix Sim.insert_bob m = (Ok tt, m))).
Proof.
  split; [reflexivity|].
  apply (writes_bypass_reads_do_not_invalidate Sim.insert_bob
           "INSERT INTO users (username, is_active) VALUES (:username, :is_active)").
  reflexivity.
Defined.

(** ** The prototype's key *)

(** The digest of RFC 1321's test vector. *)
Example md5_abc :
  Md5.hexdigest (PyStr.encode_utf8 "abc") = "900150983cd24fb0d6963f7d28e17f72"%string.
Proof. vm_compute. reflexivity. Qed.

Lemma same_key_same_item (d : PyDict) (a b : string * PyVal) :
  NoDup (map fst d) -> a ∈ d -> b ∈ d -> fst a = fst b -> a = b.
Proof.
  induction d as [|x d IH]; intros Hnd Ha Hb Hk; [by apply elem_of_nil in Ha|].
  apply NoDup_cons in Hnd as [Hx Hnd].
  apply elem_of_cons in Ha as [->|Ha]; apply elem_of_cons in Hb as [->|Hb].
  - done.
  - exfalso. apply Hx. rewrite Hk. apply list_elem_of_In, in_map, list_elem_of_In, Hb.
  - exfalso. apply Hx. rewrite <- Hk. apply list_elem_of_In, in_map, list_elem_of_In, Ha.
  - by apply IH.
Qed.

Lemma sort_items_permutation (d1 d2 : PyDict) :
  NoDup (map fst d1) -> d1 ≡ₚ d2 -> sort_items d1 = sort_items d2.
Proof.
  intros Hnd Hperm. unfold sort_items.
  apply (Sorted_unique_strong key_le).
  - intros a b Ha Hb Hab Hba.
    rewrite merge_sort_Permutation in Ha. rewrite merge_sort_Permutation, <- Hperm in Hb.
    apply (same_key_same_item d1); [done..|].
    unfold key_le in Hab, Hba. by apply (anti_symm String.le).
  - apply Sorted_merge_sort, _.
  - apply Sorted_merge_sort, _.
  - by rewrite !merge_sort_Permutation.
Qed.

(** X12. The prototype's key does not depend on the order of the
    parameters: two dictionaries with the same items (their keys being
    distinct, as in any dict) give the same key for the same statement,
    because the items are serialized sorted by key. *)
Theorem get_cache_key_order_insensitive clauseelement (d1 d2 : PyDict) :
  NoDup (map fst d1) ->
  Permutation d1 d2 ->
  get_cache_key clauseelement d1 = get_cache_key clauseelement d2.
Proof.
  intros Hnd Hperm. unfold get_cache_key, json_dumps_sorted.
  by rewrite (sort_items_permutation d1 d2 Hnd Hperm).
Qed.

Lemma get_cache_key_order_insensitive_witness :
  NoDup (map fst Sim.id_then_name) /\
  Permutation Sim.id_then_name Sim.name_then_id /\
  get_cache_key Sim.by_id_and_name Sim.id_then_name
    = get_cache_key Sim.by_id_and_name Sim.name_then_id.
Proof.
  assert (NoDup (map fst Sim.id_then_name)) as Hnd.
  { apply (bool_decide_unpack _). vm_compute. exact I. }
  split; [exact Hnd|]. split; [apply perm_swap|].
  apply (get_cache_key_order_insensitive Sim.by_id_and_name
           Sim.id_then_name Sim.name_then_id Hnd).
  apply perm_swap.
Defined.

(** ** The queue of invalidations *)

Section Queue.
Context {W : Type} `{Backend W}.

Lemma after_execute_write cache_prefix clauseelement s (m : Machine W) pending :
  str clauseelement = Ok s ->
  is_write_text (PyStr.lower (PyStr.strip s)) = true ->
  loop m = Some pending ->
  _after_execute cache_prefix clauseelement m =
    (Ok tt, {| self := self m; env := env m; trace := trace m;
               loop := Some (pending ++ [ClearCacheTask cache_prefix]) |}).
Proof.
  intros Hstr Hw Hloop.
  unfold _after_execute, suppress, try_except, lift, get_running_loop, create_task,
    mbind, M_bind, mret, M_ret.
  rewrite Hstr. simpl. rewrite Hw, Hloop. simpl. by rewrite Hloop.
Qed.

(** X13. One task per write.  The hook never merges invalidations: after
    the engine has executed [n] statements whose text starts with
    [insert], [update] or [delete], with an event loop running, the queue
    has grown by exactly [n] clearing tasks, behind the tasks that were
    pending, and still nothing has been sent to the remote cache. *)
Theorem one_task_per_write cache_prefix statements (m : Machine W) pending :
  Forall (fun clauseelement =>
            exists s, str clauseelement = Ok s /\
                      is_write_text (PyStr.lower (PyStr.strip s)) = true) statements ->
  loop m = Some pending ->
  after_each cache_prefix statements m =
    (Ok tt,
     {| self := self m; env := env m; trace := trace m;
        loop := Some (pending ++ repeat (ClearCacheTask cache_prefix) (length statements)) |}).
Proof.
  intros Hall. revert m pending.
  induction Hall as [|clauseelement rest (s & Hstr & Hw) _ IH]; intros m pending Hloop.
  - simpl. rewrite app_nil_r. unfold mret, M_ret. destruct m; simpl in *. by rewrite Hloop.
  - cbn [after_each length repeat]. unfold mbind, M_bind.
    rewrite (after_execute_write _ _ s m pending Hstr Hw Hloop).
    rewrite (IH _ (pending ++ [ClearCacheTask cache_prefix])) by done. simpl.
    by rewrite <- app_assoc.
Qed.

End Queue.

(** Three writes in a row. *)
Lemma one_task_per_write_witness :
  Forall (fun clauseelement =>
            exists s, str clauseelement = Ok s /\
                      is_write_text (PyStr.lower (PyStr.strip s)) = true)
         [Sim.insert_bob; Sim.insert_bob; Sim.insert_bob] /\
  loop Sim.m0 = Some [] /\
  after_each "sqlcache" [Sim.insert_bob; Sim.insert_bob; Sim.insert_bob] Sim.m0 =
    (Ok tt,
     {| self := self Sim.m0; env := env Sim.m0; trace := trace Sim.m0;
        loop := Some ([] ++ repeat (ClearCacheTask "sqlcache")
                                   (length [Sim.insert_bob; Sim.insert_bob; Sim.insert_bob])) |}).
Proof.
  assert (Forall (fun clauseelement =>
            exists s, str clauseelement = Ok s /\
                      is_write_text (PyStr.lower (PyStr.strip s)) = true)
         [Sim.insert_bob; Sim.insert_bob; Sim.insert_bob]) as Hall.
  { repeat constructor; eexists; (split; [reflexivity | vm_compute; reflexivity]). }
  split; [exact Hall|]. split; [reflexivity|].
  apply (one_task_per_write "sqlcache" [Sim.insert_bob; Sim.insert_bob; Sim.insert_bob]
           Sim.m0 [] Hall).
  reflexivity.
Defined.
